(** * Classificador de E-mails: a shallow embedding of [app.py]

    The development follows the source file top-down: Python strings and
    the string methods the program calls, the audit log ([registrar_log]),
    the extension check ([allowed_file]), the keyword classifier
    ([classificar_fallback]), the OpenAI adapter ([classificar_com_openai])
    and the public entry point ([classificar_email]).

    Python strings are sequences of Unicode code points, so a string is a
    list of code points here; slicing, [in], [strip] and [replace] then
    count characters exactly as Python does. *)

From Stdlib Require Import Ascii String.
From Stdlib Require Import List NArith ZArith Bool Lia.
Import ListNotations.

(** ** Python strings *)

Module PyStr.

Local Open Scope N_scope.

Definition char := N.
Definition pystr := list char.

(** Literals are written as in the source, in UTF-8, and decoded to code
    points. The decoder covers the one- to four-byte forms. *)
Definition bytes_of (s : string) : list N :=
  map (fun b => N.of_nat (nat_of_ascii b)) (list_ascii_of_string s).

Definition cont (b : N) : N := N.land b 63.

Fixpoint utf8_decode (bs : list N) : pystr :=
  match bs with
  | [] => []
  | b0 :: r0 =>
    if (b0 <? 128) then b0 :: utf8_decode r0
    else match r0 with
    | [] => [b0]
    | b1 :: r1 =>
      if (b0 <? 224)
      then (N.shiftl (N.land b0 31) 6 + cont b1) :: utf8_decode r1
      else match r1 with
      | [] => [b0; b1]
      | b2 :: r2 =>
        if (b0 <? 240)
        then (N.shiftl (N.land b0 15) 12 + N.shiftl (cont b1) 6 + cont b2)
               :: utf8_decode r2
        else match r2 with
        | [] => [b0; b1; b2]
        | b3 :: r3 =>
          (N.shiftl (N.land b0 7) 18 + N.shiftl (cont b1) 12
             + N.shiftl (cont b2) 6 + cont b3) :: utf8_decode r3
        end
      end
    end
  end.

Definition u (s : string) : pystr := utf8_decode (bytes_of s).

Definition char_eqb (a b : char) : bool := N.eqb a b.

Fixpoint str_eqb (a b : pystr) : bool :=
  match a, b with
  | [], [] => true
  | x :: a', y :: b' => char_eqb x y && str_eqb a' b'
  | _, _ => false
  end.

(** [s.startswith(p)] *)
Fixpoint startswith (p s : pystr) : bool :=
  match p, s with
  | [], _ => true
  | _ :: _, [] => false
  | x :: p', y :: s' => char_eqb x y && startswith p' s'
  end.

(** [p in t] on strings: [p] occurs in [t] as a contiguous substring. *)
Fixpoint str_in (p t : pystr) : bool :=
  startswith p t ||
  match t with
  | [] => false
  | _ :: t' => str_in p t'
  end.

(** [str.isspace] on one character: the code points for which CPython's
    [_PyUnicode_IsWhitespace] answers true. *)
Definition isspace (c : char) : bool :=
  ((9 <=? c) && (c <=? 13)) || ((28 <=? c) && (c <=? 32))
  || (c =? 133) || (c =? 160) || (c =? 5760)
  || ((8192 <=? c) && (c <=? 8202))
  || (c =? 8232) || (c =? 8233) || (c =? 8239) || (c =? 8287)
  || (c =? 12288).

Fixpoint lstrip (s : pystr) : pystr :=
  match s with
  | [] => []
  | c :: s' => if isspace c then lstrip s' else s
  end.

Definition rstrip (s : pystr) : pystr := rev (lstrip (rev s)).

(** [s.strip()] *)
Definition strip (s : pystr) : pystr := rstrip (lstrip s).

(** [s.replace(a, b)] for one-character [a] and [b]. *)
Definition replace_char (a b : char) (s : pystr) : pystr :=
  map (fun c => if char_eqb c a then b else c) s.

(** [s[:n]] *)
Definition slice_to (n : nat) (s : pystr) : pystr := firstn n s.

(** [s.rsplit(sep, 1)] for a one-character separator: the text is cut at
    the last occurrence of [sep]; without one the list has one element. *)
Fixpoint rcut (sep : char) (s : pystr) : option (pystr * pystr) :=
  match s with
  | [] => None
  | c :: s' =>
    match rcut sep s' with
    | Some (a, b) => Some (c :: a, b)
    | None => if char_eqb c sep then Some ([], s') else None
    end
  end.

Definition rsplit1 (sep : char) (s : pystr) : list pystr :=
  match rcut sep s with
  | Some (a, b) => [a; b]
  | None => [s]
  end.

(** The truth value of a string: non-empty. *)
Definition truthy (s : pystr) : bool :=
  match s with [] => false | _ => true end.

(** [str.lower] on the Latin-1 range, where it is a per-character map:
    A-Z and the accented capitals (the multiplication sign apart) move
    by 32. It is the instance the examples run with. *)
Definition lower_char_latin1 (c : char) : char :=
  if ((65 <=? c) && (c <=? 90))
     || ((192 <=? c) && (c <=? 222) && negb (c =? 215))
  then c + 32 else c.

Definition lower_latin1 (s : pystr) : pystr := map lower_char_latin1 s.

Definition is_ascii (c : char) : bool := c <? 128.

Definition lower_char_ascii (c : char) : char :=
  if (65 <=? c) && (c <=? 90) then c + 32 else c.

End PyStr.

Import PyStr.

(** ** Python values, exceptions and the process state *)

(** The values the program handles besides plain strings: what
    [json.loads] builds and what the OpenAI response object holds. A float
    is kept as its literal; the program does no arithmetic on it. A dict
    lists its items in insertion order, each key once. *)
#[warnings="-register-all"] Inductive pyval : Type :=
  | PNone
  | PBool (b : bool)
  | PInt (z : Z)
  | PFloat (lit : pystr)
  | PStr (s : pystr)
  | PList (l : list pyval)
  | PDict (d : list (pystr * pyval)).

(** Exception classes, all below [Exception]; [except Exception] catches
    each of them. *)
Inductive pyexn : Type :=
  | KeyError
  | IndexError
  | TypeError
  | AttributeError
  | JSONDecodeError
  | OSError
  | UnicodeEncodeError
  | OpenAIError (detail : pystr)
  | RequestEntityTooLarge.

Inductive result (A : Type) : Type :=
  | Ok (a : A)
  | Raise (e : pyexn).

Arguments Ok {A} a.
Arguments Raise {A} e.

(** Records of the [logging] module. *)
Inductive logrec : Type :=
  | LogWarning (msg : pystr) (e : pyexn)
  | LogException (msg : pystr) (e : pyexn).

(** What a call can read and change. The first five fields are the
    surroundings of the process: whether [import openai] succeeded, the
    environment variable, the remote service, the clock, and the file
    system's answer to an append of one chunk to [classificador.log]
    (given the chunks already there). The last three are mutable. *)
Record world : Type := World {
  openai : bool;
  OPENAI_API_KEY : option pystr;
  ChatCompletion_create : pystr -> pystr -> result pyval;
  now_isoformat : pystr;
  append_fault : list pystr -> pystr -> option pyexn;
  LOG_FILE : list pystr;
  openai_api_key : option pystr;
  logger : list logrec
}.

Definition set_LOG_FILE (f : list pystr) (w : world) : world :=
  World (openai w) (OPENAI_API_KEY w) (ChatCompletion_create w)
        (now_isoformat w) (append_fault w) f (openai_api_key w) (logger w).

Definition set_openai_api_key (k : option pystr) (w : world) : world :=
  World (openai w) (OPENAI_API_KEY w) (ChatCompletion_create w)
        (now_isoformat w) (append_fault w) (LOG_FILE w) k (logger w).

Definition set_logger (l : list logrec) (w : world) : world :=
  World (openai w) (OPENAI_API_KEY w) (ChatCompletion_create w)
        (now_isoformat w) (append_fault w) (LOG_FILE w) (openai_api_key w) l.

(** ** Computations: state that survives an exception *)

Definition M (A : Type) : Type := world -> result A * world.

Definition ret {A} (a : A) : M A := fun w => (Ok a, w).

Definition raise {A} (e : pyexn) : M A := fun w => (Raise e, w).

Definition bind {A B} (c : M A) (k : A -> M B) : M B :=
  fun w =>
    match c w with
    | (Ok a, w') => k a w'
    | (Raise e, w') => (Raise e, w')
    end.

(** [try: c except Exception as e: h e] *)
Definition try_except {A} (c : M A) (h : pyexn -> M A) : M A :=
  fun w =>
    match c w with
    | (Ok a, w') => (Ok a, w')
    | (Raise e, w') => h e w'
    end.

Definition lift {A} (r : result A) : M A := fun w => (r, w).

Definition ask {A} (f : world -> A) : M A := fun w => (Ok (f w), w).

Definition modify (f : world -> world) : M unit := fun w => (Ok tt, f w).

Declare Scope py_scope.
Delimit Scope py_scope with py.
Notation "x <- c ;; k" := (bind c (fun x => k))
  (at level 61, c at next level, right associativity) : py_scope.
Notation "c ;; k" := (bind c (fun _ => k))
  (at level 61, right associativity) : py_scope.
Local Open Scope py_scope.

(** [with open(LOG_FILE, "a", encoding="utf-8") as f: f.write(chunk)] *)
Definition file_append (chunk : pystr) : M unit :=
  fun w =>
    match append_fault w (LOG_FILE w) chunk with
    | Some e => (Raise e, w)
    | None => (Ok tt, set_LOG_FILE (LOG_FILE w ++ [chunk]) w)
    end.

Definition logger_warning (msg : pystr) (e : pyexn) : M unit :=
  modify (fun w => set_logger (logger w ++ [LogWarning msg e]) w).

Definition logger_exception (msg : pystr) (e : pyexn) : M unit :=
  modify (fun w => set_logger (logger w ++ [LogException msg e]) w).

(** [v[key]] for a string key. *)
Fixpoint dict_find (d : list (pystr * pyval)) (key : pystr) : option pyval :=
  match d with
  | [] => None
  | (k, v) :: d' => if str_eqb k key then Some v else dict_find d' key
  end.

Definition getitem_key (v : pyval) (key : pystr) : result pyval :=
  match v with
  | PDict d =>
    match dict_find d key with
    | Some x => Ok x
    | None => Raise KeyError
    end
  | _ => Raise TypeError
  end.

(** [v[i]] for an index [i >= 0]. A dict built from JSON has string keys
    only, so an integer key is missing from it. *)
Definition getitem_index (v : pyval) (i : nat) : result pyval :=
  match v with
  | PList l =>
    match nth_error l i with
    | Some x => Ok x
    | None => Raise IndexError
    end
  | PStr s =>
    match nth_error s i with
    | Some c => Ok (PStr [c])
    | None => Raise IndexError
    end
  | PDict _ => Raise KeyError
  | _ => Raise TypeError
  end.

(** What [d.get(key, default)] answers on a dict [d]. *)
Definition get_or (d : list (pystr * pyval)) (key : pystr) (default : pyval)
  : pyval :=
  match dict_find d key with
  | Some x => x
  | None => default
  end.

(** [v.get(key, default)]: a dict method. *)
Definition method_get (v : pyval) (key : pystr) (default : pyval)
  : result pyval :=
  match v with
  | PDict d =>
    match dict_find d key with
    | Some x => Ok x
    | None => Ok default
    end
  | _ => Raise AttributeError
  end.

(** ** Regular expressions, as far as [r"\{.*\}"] needs them

    A pattern is a sequence of literal characters and [.*] items; [.*] is
    greedy and gives characters back one at a time, and [re.search] tries
    the start positions from the left. *)
Inductive re_item : Type :=
  | Lit (c : char)
  | DotStar.

(** [.] matches every character under [re.DOTALL], every one but the
    newline otherwise. *)
Definition dot_matches (dotall : bool) (c : char) : bool :=
  dotall || negb (char_eqb c 10%N).

(** [k] continues the match on the rest; the answer is the text left
    after the whole match. *)
Fixpoint dot_star (dotall : bool) (k : pystr -> option pystr) (s : pystr)
  : option pystr :=
  match s with
  | [] => k []
  | c :: s' =>
    if dot_matches dotall c then
      match dot_star dotall k s' with
      | Some r => Some r
      | None => k s
      end
    else k s
  end.

Fixpoint match_here (dotall : bool) (pat : list re_item) (s : pystr)
  : option pystr :=
  match pat with
  | [] => Some s
  | Lit c :: pat' =>
    match s with
    | x :: s' => if char_eqb x c then match_here dotall pat' s' else None
    | [] => None
    end
  | DotStar :: pat' => dot_star dotall (match_here dotall pat') s
  end.

(** [re.search(pat, s, flags)]; the answer is [m.group(0)]. *)
Fixpoint re_search (dotall : bool) (pat : list re_item) (s : pystr)
  : option pystr :=
  match match_here dotall pat s with
  | Some rest => Some (firstn (length s - length rest) s)
  | None =>
    match s with
    | [] => None
    | _ :: s' => re_search dotall pat s'
    end
  end.

Definition open_brace : char := 123%N.
Definition close_brace : char := 125%N.

(** [r"\{.*\}"] *)
Definition json_pattern : list re_item :=
  [Lit open_brace; DotStar; Lit close_brace].

(** The rest of the pattern after its [.*]. *)
Definition close_k : pystr -> option pystr :=
  match_here true [Lit close_brace].

(** ** The program *)

Definition nl : pystr := [10%N].

Definition LF : char := 10%N.
Definition SPACE : char := 32%N.
Definition DOT : char := 46%N.
Definition quote : char := 34%N.

Definition Produtivo : pystr := u "Produtivo".
Definition Improdutivo : pystr := u "Improdutivo".

(** [ALLOWED_EXTENSIONS = {"txt", "pdf"}] *)
Definition ALLOWED_EXTENSIONS : list pystr := [u "txt"; u "pdf"].

Definition set_contains (xs : list pystr) (x : pystr) : bool :=
  existsb (str_eqb x) xs.

Definition palavras_produtivas : list pystr :=
  [ u "status"; u "erro"; u "problema"; u "ajuda"; u "solicitação";
    u "solicitacao"; u "anexo"; u "relatório"; u "relatorio"; u "suporte";
    u "ticket"; u "falha"; u "incidente"; u "reunião"; u "reuniao";
    u "agendar"; u "urgente"; u "pendente" ].

Definition palavras_improdutivas : list pystr :=
  [ u "obrigado"; u "obrigada"; u "feliz natal"; u "boas festas";
    u "parabéns"; u "parabens"; u "abraços" ].

Definition resposta_produtiva : pystr :=
  u "Olá, recebemos seu e-mail. Agradecemos o contato e iremos verificar sua solicitação. "
  ++ u "Retornaremos no prazo de um dia útil. Se possível, envie mais detalhes ou anexe arquivos relevantes.".

Definition resposta_vazio : pystr := u "Obrigado pela mensagem!".
Definition resposta_cortesia : pystr := u "Agradeço a mensagem e o contato!".
Definition resposta_padrao : pystr := u "Agradeço o contato!".

(** [texto or ''] *)
Definition or_empty (texto : pystr) : pystr :=
  if truthy texto then texto else [].

(** [(texto or '')[:200].replace('\n', ' ')] *)
Definition snippet_of (texto : pystr) : pystr :=
  replace_char LF SPACE (slice_to 200 (or_empty texto)).

Definition prompt_of (texto : pystr) : pystr :=
  u "Classifique o e-mail abaixo em 'Produtivo' ou 'Improdutivo' "
  ++ u "e gere uma resposta apropriada em português. "
  ++ u "Retorne a saída no formato JSON com chaves: category e reply." ++ nl ++ nl
  ++ u "E-mail:" ++ nl ++ texto ++ nl ++ nl
  ++ u "Exemplo de saída: {" ++ [quote] ++ u "category" ++ [quote] ++ u ": "
  ++ [quote] ++ u "Produtivo" ++ [quote] ++ u ", " ++ [quote] ++ u "reply"
  ++ [quote] ++ u ": " ++ [quote] ++ u "..." ++ [quote] ++ u "}".

(** ** Concrete surroundings for the examples *)

Definition doc_empty : pystr := u "{}".

Definition doc_category_only : pystr :=
  u "{" ++ [quote] ++ u "category" ++ [quote] ++ u ": " ++ [quote]
  ++ u "Improdutivo" ++ [quote] ++ u "}".

Definition doc_reply_only : pystr :=
  u "{" ++ [quote] ++ u "reply" ++ [quote] ++ u ": " ++ [quote]
  ++ u "ok" ++ [quote] ++ u "}".

(** [json.loads] on the three documents above, which decode as Python
    decodes them. Any other text is treated as undecodable. *)
Definition json_loads_docs (s : pystr) : result pyval :=
  if str_eqb s doc_empty then Ok (PDict [])
  else if str_eqb s doc_category_only
  then Ok (PDict [(u "category", PStr Improdutivo)])
  else if str_eqb s doc_reply_only
  then Ok (PDict [(u "reply", PStr (u "ok"))])
  else Raise JSONDecodeError.

(** [str] of the constants; other values do not occur in the examples. *)
Definition str_of_constants (v : pyval) : pystr :=
  match v with
  | PNone => u "None"
  | PBool true => u "True"
  | PBool false => u "False"
  | _ => u "<object>"
  end.

Definition ts0 : pystr := u "2024-05-01T12:00:00.000000".

(** No [openai] module, no key: the file system accepts every append. *)
Definition world_offline : world :=
  World false None (fun _ _ => Raise (OpenAIError [])) ts0
        (fun _ _ => None) [] None [].

(** The same, with a log file that cannot be opened for writing. *)
Definition world_readonly : world :=
  World false None (fun _ _ => Raise (OpenAIError [])) ts0
        (fun _ _ => Some OSError) [] None [].

(** The response object of a chat completion with one choice. *)
Definition chat_response (conteudo : pyval) : pyval :=
  PDict [(u "choices",
          PList [PDict [(u "message", PDict [(u "content", conteudo)])]])].

(** A configured process whose remote call answers [conteudo]. *)
Definition world_remote (conteudo : pyval) : world :=
  World true (Some (u "sk-test")) (fun _ _ => Ok (chat_response conteudo)) ts0
        (fun _ _ => None) [] None [].

(** A configured process whose remote call fails. *)
Definition world_remote_down : world :=
  World true (Some (u "sk-test"))
        (fun _ _ => Raise (OpenAIError (u "timeout"))) ts0
        (fun _ _ => None) [] None [].

(** A text with a courtesy keyword early and a productive one later. *)
Definition texto_obrigado_ajuda : pystr :=
  u "Muito obrigado pela ajuda, feliz natal!".

(** Spaces, a tab, a newline and a no-break space. *)
Definition texto_em_branco : pystr := [32; 9; 10; 160; 32]%N.

Definition texto_urgente : pystr :=
  u "Preciso de ajuda com um erro urgente no sistema".

(** ** Specification predicates *)

(** [p] occurs in [t]. *)
Definition substring (p t : pystr) : Prop :=
  exists a b, t = a ++ p ++ b.

(** Empty or made of whitespace only. *)
Definition blank (s : pystr) : Prop :=
  forall c, In c s -> isspace c = true.

(** [g] is the span of [s] from its first opening brace to its last
    closing brace. *)
Definition brace_span (s g : pystr) : Prop :=
  exists pre mid post,
    s = pre ++ [open_brace] ++ mid ++ [close_brace] ++ post
    /\ ~ In open_brace pre
    /\ ~ In close_brace post
    /\ g = [open_brace] ++ mid ++ [close_brace].

(** [s] holds no opening brace followed, anywhere later, by a closing
    one. *)
Definition no_brace_span (s : pystr) : Prop :=
  forall pre mid post,
    s <> pre ++ [open_brace] ++ mid ++ [close_brace] ++ post.

(** Some keyword of the list occurs in [t]. *)
Definition has_keyword (ps : list pystr) (t : pystr) : Prop :=
  exists p, In p ps /\ substring p t.

(** The log file after one call of [registrar_log]: one more line when
    the file system accepts the append, no change when it refuses. *)
Definition audit_outcome (line : pystr) (w w' : world) : Prop :=
  match append_fault w (LOG_FILE w) line with
  | None => LOG_FILE w' = LOG_FILE w ++ [line]
  | Some _ => LOG_FILE w' = LOG_FILE w
  end.

(** The surroundings of the process do not change during a call. *)
Definition same_surroundings (w w' : world) : Prop :=
  openai w' = openai w
  /\ OPENAI_API_KEY w' = OPENAI_API_KEY w
  /\ ChatCompletion_create w' = ChatCompletion_create w
  /\ now_isoformat w' = now_isoformat w
  /\ append_fault w' = append_fault w.

(** What the proofs ask of [str.lower]: whitespace has no case, and on
    ASCII text only A-Z move. Both hold of Python's [str.lower]. *)
Definition keeps_blank (lower : pystr -> pystr) : Prop :=
  forall s, blank s -> blank (lower s).

Definition lowers_ascii (lower : pystr -> pystr) : Prop :=
  forall s, (forall c, In c s -> is_ascii c = true) ->
            lower s = map lower_char_ascii s.

Section Program.

(** Library functions the program calls and this development does not
    define: [str.lower] over all of Unicode, [json.loads], and the text
    an f-string shows for a value that is not a string. *)
Variable lower : pystr -> pystr.
Variable json_loads : pystr -> result pyval.
Variable str_of_other : pyval -> pystr.

(** [f"{v}"] *)
Definition fstr (v : pyval) : pystr :=
  match v with
  | PStr s => s
  | _ => str_of_other v
  end.

(** [f"{ts} | {categoria} | {snippet}\n"] *)
Definition log_line (ts : pystr) (categoria : pyval) (snippet : pystr)
  : pystr :=
  ts ++ u " | " ++ fstr categoria ++ u " | " ++ snippet ++ nl.

Definition registrar_log (texto : pystr) (categoria : pyval) : M unit :=
  try_except
    (ts <- ask now_isoformat ;;
     let snippet := snippet_of texto in
     file_append (log_line ts categoria snippet))
    (fun e => logger_warning (u "Falha ao gravar log local: %s") e).

(** [allowed_file]: [and] evaluates its right operand only when the left
    one holds. *)
Definition allowed_file (filename : pystr) : result bool :=
  if str_in [DOT] filename then
    match nth_error (rsplit1 DOT filename) 1 with
    | Some ext => Ok (set_contains ALLOWED_EXTENSIONS (lower ext))
    | None => Raise IndexError
    end
  else Ok false.

Definition classificar_fallback (texto : pystr) : M (pystr * pystr) :=
  if negb (truthy texto) || negb (truthy (strip texto)) then
    registrar_log (or_empty texto) (PStr Improdutivo) ;;
    ret (Improdutivo, resposta_vazio)
  else
    let t := lower texto in
    match find (fun p => str_in p t) palavras_produtivas with
    | Some _ =>
      let categoria := Produtivo in
      let resposta := resposta_produtiva in
      registrar_log texto (PStr categoria) ;;
      ret (categoria, resposta)
    | None =>
      match find (fun p => str_in p t) palavras_improdutivas with
      | Some _ =>
        let categoria := Improdutivo in
        let resposta := resposta_cortesia in
        registrar_log texto (PStr categoria) ;;
        ret (categoria, resposta)
      | None =>
        registrar_log texto (PStr Improdutivo) ;;
        ret (Improdutivo, resposta_padrao)
      end
    end.

(** [re.search(r"\{.*\}", conteudo, re.DOTALL)]; a [conteudo] that is
    not a string is a [TypeError]. *)
Definition search_json (conteudo : pyval) : result (option pystr) :=
  match conteudo with
  | PStr s => Ok (re_search true json_pattern s)
  | _ => Raise TypeError
  end.

(** [resp["choices"][0]["message"]["content"]] *)
Definition message_content (resp : pyval) : result pyval :=
  match getitem_key resp (u "choices") with
  | Raise e => Raise e
  | Ok choices =>
    match getitem_index choices 0 with
    | Raise e => Raise e
    | Ok choice =>
      match getitem_key choice (u "message") with
      | Raise e => Raise e
      | Ok message => getitem_key message (u "content")
      end
    end
  end.

(** The body of the [try] of [classificar_com_openai]. *)
Definition openai_try (api_key texto : pystr)
  : M (option (pyval * pyval)) :=
  modify (set_openai_api_key (Some api_key)) ;;
  let prompt := prompt_of texto in
  create <- ask ChatCompletion_create ;;
  resp <- lift (create api_key prompt) ;;
  conteudo <- lift (message_content resp) ;;
  m <- lift (search_json conteudo) ;;
  match m with
  | Some group0 =>
    parsed <- lift (json_loads group0) ;;
    category <- lift (method_get parsed (u "category") (PStr Produtivo)) ;;
    reply <- lift (method_get parsed (u "reply") (PStr [])) ;;
    registrar_log texto category ;;
    ret (Some (category, reply))
  | None =>
    registrar_log texto (PStr Produtivo) ;;
    ret (Some (PStr Produtivo, conteudo))
  end.

(** [None] of the source is [None] here; a pair is [Some]. *)
Definition classificar_com_openai (texto : pystr)
  : M (option (pyval * pyval)) :=
  lib <- ask openai ;;
  if negb lib then ret None
  else
    api_key <- ask OPENAI_API_KEY ;;
    match api_key with
    | None => ret None
    | Some key =>
      if negb (truthy key) then ret None
      else
        try_except
          (openai_try key texto)
          (fun e =>
             logger_exception (u "Erro ao chamar OpenAI: %s") e ;;
             ret None)
    end.

(** [if res:] holds for every pair, so only [None] falls through. *)
Definition classificar_email (texto : pystr) : M (pyval * pyval) :=
  res <- classificar_com_openai texto ;;
  match res with
  | Some r => ret r
  | None =>
    fb <- classificar_fallback texto ;;
    ret (PStr (fst fb), PStr (snd fb))
  end.

End Program.

(** ** Paths, uploaded files and the request handler *)

Definition SLASH : char := 47%N.
Definition UNDERSCORE : char := 95%N.

Definition UPLOAD_FOLDER : pystr := u "uploads".

(** [app.config["MAX_CONTENT_LENGTH"] = 5 * 1024 * 1024] *)
Definition MAX_CONTENT_LENGTH : N := (5 * 1024 * 1024)%N.
Definition APP_NAME : pystr := u "Classificador de E-mails — Fernando Andrade".

(** [s.rfind(c)]: the index of the last [c], or -1. *)
Fixpoint rfind_from (c : char) (s : pystr) (i last : Z) : Z :=
  match s with
  | [] => last
  | x :: s' => rfind_from c s' (i + 1)%Z (if char_eqb x c then i else last)
  end.

Definition rfind (c : char) (s : pystr) : Z := rfind_from c s 0%Z (-1)%Z.

(** [s[a:b]] for [0 <= a]. *)
Definition slice (a b : nat) (s : pystr) : pystr := firstn (b - a) (skipn a s).

(** [s.endswith(p)] *)
Definition endswith (p s : pystr) : bool := startswith (rev p) (rev s).

(** [os.path.join(a, b)] on a POSIX host. *)
Definition path_join (a b : pystr) : pystr :=
  if startswith [SLASH] b then b
  else if negb (truthy a) || endswith [SLASH] a then a ++ b
  else a ++ [SLASH] ++ b.

(** The loop of [os.path.splitext] that skips the leading dots of the
    file name: [steps] is what is left of [dotIndex - filenameIndex]. *)
Fixpoint splitext_loop (p : pystr) (dotIndex filenameIndex steps : nat)
  : pystr * pystr :=
  match steps with
  | O => (p, [])
  | S steps' =>
    if negb (str_eqb (slice filenameIndex (S filenameIndex) p) [DOT])
    then (firstn dotIndex p, skipn dotIndex p)
    else splitext_loop p dotIndex (S filenameIndex) steps'
  end.

(** [os.path.splitext(p)] on a POSIX host: separator "/", extension
    separator ".". *)
Definition splitext (p : pystr) : pystr * pystr :=
  let sepIndex := rfind SLASH p in
  let dotIndex := rfind DOT p in
  if (sepIndex <? dotIndex)%Z
  then splitext_loop p (Z.to_nat dotIndex) (Z.to_nat (sepIndex + 1))
                     (Z.to_nat (dotIndex - (sepIndex + 1)))
  else (p, []).

(** An uploaded file: the name the browser sent (absent or empty when no
    file was chosen) and its bytes. *)
Record upload : Type := Upload {
  up_filename : option pystr;
  up_body : list N
}.

(** The upload folder, as the list of files saved to it, oldest first. *)
Definition disk_t : Type := list (pystr * upload).

(** What the handler finds on its host: werkzeug's [secure_filename], the
    answer of the file system to saving an upload and to reading a file
    as text, and pdfminer's [extract_text] when the import succeeded. *)
Record host : Type := Host {
  secure_filename : pystr -> pystr;
  save_fault : disk_t -> upload -> pystr -> option pyexn;
  read_text : disk_t -> pystr -> result pystr;
  pdf_extract_text : option (disk_t -> pystr -> result pystr)
}.

(** The state a request runs in: the classifier's world, the upload
    folder, and the messages flashed to the user, each with its
    category. *)
Record site : Type := Site {
  site_world : world;
  site_disk : disk_t;
  site_flashes : list (pystr * pystr)
}.

Definition set_site_world (w : world) (s : site) : site :=
  Site w (site_disk s) (site_flashes s).

Definition set_site_disk (d : disk_t) (s : site) : site :=
  Site (site_world s) d (site_flashes s).

Definition set_site_flashes (f : list (pystr * pystr)) (s : site) : site :=
  Site (site_world s) (site_disk s) f.

Definition Req (A : Type) : Type := site -> result A * site.

Definition retR {A} (a : A) : Req A := fun s => (Ok a, s).

Definition bindR {A B} (c : Req A) (k : A -> Req B) : Req B :=
  fun s =>
    match c s with
    | (Ok a, s') => k a s'
    | (Raise e, s') => (Raise e, s')
    end.

Definition try_exceptR {A} (c : Req A) (h : pyexn -> Req A) : Req A :=
  fun s =>
    match c s with
    | (Ok a, s') => (Ok a, s')
    | (Raise e, s') => h e s'
    end.

Definition liftR {A} (r : result A) : Req A := fun s => (r, s).

(** A computation on the classifier's world, run inside a request. *)
Definition in_world {A} (c : M A) : Req A :=
  fun s =>
    match c (site_world s) with
    | (r, w') => (r, set_site_world w' s)
    end.

Declare Scope site_scope.
Delimit Scope site_scope with site.
Notation "x <- c ;; k" := (bindR c (fun x => k))
  (at level 61, c at next level, right associativity) : site_scope.
Notation "c ;; k" := (bindR c (fun _ => k))
  (at level 61, right associativity) : site_scope.

(** [flash(message, category)] *)
Definition flash (message category : pystr) : Req unit :=
  fun s => (Ok tt, set_site_flashes (site_flashes s ++ [(message, category)]) s).

(** The method of the request; Flask routes HEAD to the view of GET. *)
Inductive http_method : Type := GET | HEAD | POST.

(** [request]: the method, the form field [email_text] and the file
    field [email_file], each present or not, and [req_extra], the bytes
    of the body beyond one per character of the text and the bytes of
    the file: boundaries and headers of the encoding, the further bytes
    of multi-byte characters, other fields. *)
Record request : Type := Request {
  req_method : http_method;
  req_extra : N;
  form_email_text : option pystr;
  files_email_file : option upload
}.

(** The length of the body, which is what Flask holds against
    [MAX_CONTENT_LENGTH]. *)
Definition content_length (req : request) : N :=
  (req_extra req
   + N.of_nat (length (match form_email_text req with
                       | Some t => t
                       | None => []
                       end))
   + match files_email_file req with
     | Some arquivo => N.of_nat (length (up_body arquivo))
     | None => 0
     end)%N.

(** What [render_template("index.html", ...)] is given: [resultado], and
    [app_name] when it is passed. *)
Record page : Type := Page {
  page_template : pystr;
  page_resultado : option (pystr * pyval * pyval);
  page_app_name : option pystr
}.

Definition msg_formato : pystr :=
  u "Formato de arquivo não permitido. Use .txt ou .pdf".
Definition msg_erro_arquivo : pystr :=
  u "Erro ao processar o arquivo enviado.".
Definition msg_insira : pystr :=
  u "Por favor, insira texto ou envie um arquivo válido (.txt ou .pdf).".

(** [render_template("index.html", resultado=None)] *)
Definition page_none : page := Page (u "index.html") None None.

(** What the handler gets from Flask besides the request: what parsing
    the body raises, if anything, when [request.form] is first read (the
    check against [MAX_CONTENT_LENGTH] apart, which is written out
    below), and what [render_template] raises, if anything, for the
    arguments it is given; [templates/index.html] is not part of the
    program text. *)
Record flask : Type := Flask {
  form_fault : request -> option pyexn;
  render_fault : page -> option pyexn
}.

Section Handler.

Variable lower : pystr -> pystr.
Variable json_loads : pystr -> result pyval.
Variable str_of_other : pyval -> pystr.
Variable h : host.
Variable fw : flask.

Local Open Scope site_scope.

(** The first read of [request.form]: a body longer than
    [MAX_CONTENT_LENGTH] is refused with [RequestEntityTooLarge], and the
    parser may fail for reasons of its own. *)
Definition request_form (req : request) : Req unit :=
  if (MAX_CONTENT_LENGTH <? content_length req)%N
  then liftR (Raise RequestEntityTooLarge)
  else
    match form_fault fw req with
    | Some e => liftR (Raise e)
    | None => retR tt
    end.

(** [render_template("index.html", ...)]: the page is stood for by the
    arguments it is rendered from. *)
Definition render_template (pg : page) : Req page :=
  fun s =>
    match render_fault fw pg with
    | Some e => (Raise e, s)
    | None => (Ok pg, s)
    end.

(** [arquivo.save(caminho)] *)
Definition save_upload (arquivo : upload) (caminho : pystr) : Req unit :=
  fun s =>
    match save_fault h (site_disk s) arquivo caminho with
    | Some e => (Raise e, s)
    | None => (Ok tt, set_site_disk (site_disk s ++ [(caminho, arquivo)]) s)
    end.

(** [open(caminho, "r", encoding="utf-8", errors="ignore").read()] *)
Definition open_read (caminho : pystr) : Req pystr :=
  fun s => (read_text h (site_disk s) caminho, s).

Definition ler_arquivo (caminho : pystr) : Req pystr :=
  try_exceptR
    (let extensao := lower (snd (splitext caminho)) in
     if str_eqb extensao (u ".txt") then open_read caminho
     else if str_eqb extensao (u ".pdf") then
       match pdf_extract_text h with
       | Some extract =>
         try_exceptR
           (fun s => (extract (site_disk s) caminho, s))
           (fun e =>
              in_world (logger_warning (u "Erro ao extrair PDF: %s") e) ;;
              retR [])
       | None => retR []
       end
     else retR [])
    (fun e =>
       in_world (logger_exception (u "ler_arquivo falhou: %s") e) ;;
       retR []).

(** [arquivo and arquivo.filename]: a file storage is true when its
    name is. *)
Definition has_filename (arquivo : upload) : option pystr :=
  match up_filename arquivo with
  | Some name => if truthy name then Some name else None
  | None => None
  end.

(** The part of [index] between reading the form and the check for an
    empty text: [inl] is a page returned at once, [inr] the text to go
    on with. *)
Definition index_upload (email_texto : pystr) (arquivo : upload)
  : Req (page + pystr) :=
  match has_filename arquivo with
  | Some name =>
    allowed <- liftR (allowed_file lower name) ;;
    if negb allowed then
      flash msg_formato (u "danger") ;;
      retR (inl page_none)
    else
      let filename := secure_filename h name in
      let caminho := path_join UPLOAD_FOLDER filename in
      try_exceptR
        (save_upload arquivo caminho ;;
         texto <- ler_arquivo caminho ;;
         retR (inr texto))
        (fun e =>
           in_world
             (logger_exception (u "Erro ao salvar/ler arquivo: %s") e) ;;
           flash msg_erro_arquivo (u "danger") ;;
           retR (inl page_none))
  | None => retR (inr email_texto)
  end.

Definition index (req : request) : Req page :=
  match req_method req with
  | POST =>
    request_form req ;;
    let email_texto :=
      strip (match form_email_text req with Some t => t | None => [] end) in
    step <-
      (if negb (truthy email_texto) then
         match files_email_file req with
         | Some arquivo => index_upload email_texto arquivo
         | None => retR (inr email_texto)
         end
       else retR (inr email_texto)) ;;
    match step with
    | inl early => render_template early
    | inr email_texto =>
      if negb (truthy email_texto) then
        flash msg_insira (u "warning") ;;
        render_template page_none
      else
        res <- in_world
                 (classificar_email lower json_loads str_of_other
                                    email_texto) ;;
        render_template
          (Page (u "index.html")
                (Some (email_texto, fst res, snd res))
                (Some APP_NAME))
    end
  | _ => render_template (Page (u "index.html") None (Some APP_NAME))
  end.

End Handler.

(** ** States after a request, for the statements *)

(** The state with one more record in the logger. *)
Definition log_in_site (rec : logrec) (s : site) : site :=
  set_site_world
    (set_logger (logger (site_world s) ++ [rec]) (site_world s)) s.

(** The state with one more flashed message. *)
Definition flashed (message category : pystr) (s : site) : site :=
  set_site_flashes (site_flashes s ++ [(message, category)]) s.

(** [request.form.get("email_text", "").strip()] *)
Definition form_text (req : request) : pystr :=
  strip (match form_email_text req with Some t => t | None => [] end).

(** [render_template("index.html", resultado=resultado,
    app_name=APP_NAME)] *)
Definition page_of (resultado : option (pystr * pyval * pyval)) : page :=
  Page (u "index.html") resultado (Some APP_NAME).

(** What [index] does on a POST, once the text to go on with is known:
    [step] is the outcome of the upload step. *)
Definition index_rest
           (lower : pystr -> pystr) (json_loads : pystr -> result pyval)
           (str_of_other : pyval -> pystr) (fw : flask) (step : page + pystr)
  : Req page :=
  match step with
  | inl early => render_template fw early
  | inr email_texto =>
    if negb (truthy email_texto) then
      (flash msg_insira (u "warning") ;; render_template fw page_none)%site
    else
      (res <- in_world
                (classificar_email lower json_loads str_of_other
                                   email_texto) ;;
       render_template fw
         (Page (u "index.html")
               (Some (email_texto, fst res, snd res))
               (Some APP_NAME)))%site
  end.


(** ** Concrete hosts and requests for the examples *)

(** [secure_filename] on names made of ASCII letters, digits, "_", "."
    and "-" only: nothing is replaced, and dots and underscores are
    stripped from both ends. *)
Fixpoint lstrip_dots (s : pystr) : pystr :=
  match s with
  | [] => []
  | c :: s' =>
    if char_eqb c DOT || char_eqb c UNDERSCORE then lstrip_dots s' else s
  end.

Definition secure_filename_plain (s : pystr) : pystr :=
  rev (lstrip_dots (rev (lstrip_dots s))).

(** A host whose file system works: a saved file reads back as the text
    [texto_urgente], and pdfminer is missing. *)
Definition host_plain : host :=
  Host secure_filename_plain (fun _ _ _ => None)
       (fun _ _ => Ok texto_urgente) None.

(** The same with pdfminer installed and failing on every file. *)
Definition host_pdf_broken : host :=
  Host secure_filename_plain (fun _ _ _ => None)
       (fun _ _ => Ok texto_urgente)
       (Some (fun _ _ => Raise (OpenAIError (u "pdf")))).

(** A host whose upload folder cannot be written or read. *)
Definition host_disk_full : host :=
  Host secure_filename_plain (fun _ _ _ => Some OSError)
       (fun _ _ => Raise OSError) None.

(** A host on which every file reads as whitespace. *)
Definition host_blank_file : host :=
  Host secure_filename_plain (fun _ _ _ => None)
       (fun _ _ => Ok texto_em_branco) None.

Definition site_offline : site := Site world_offline [] [].

Definition upload_txt : upload := Upload (Some (u "Pedido.TXT")) [111; 105]%N.
Definition upload_exe : upload := Upload (Some (u "virus.exe")) [77; 90]%N.

(** A POST of the form with blank text and a file. *)
Definition req_file (arquivo : upload) : request :=
  Request POST 300 (Some (u "   ")) (Some arquivo).

(** A POST of the form with text, and a file sent along. *)
Definition req_text_and_file : request :=
  Request POST 300 (Some (u "  " ++ texto_urgente ++ nl)) (Some upload_exe).


(** A POST whose body is longer than the limit. *)
Definition req_too_large : request :=
  Request POST (MAX_CONTENT_LENGTH + 1) (Some texto_urgente) None.

(** Flask with a body parser and a template that work. *)
Definition flask_plain : flask := Flask (fun _ => None) (fun _ => None).


(** A response whose category is neither of the two names. *)
Definition doc_spam : pystr :=
  u "{" ++ [quote] ++ u "category" ++ [quote] ++ u ": " ++ [quote]
  ++ u "Spam" ++ [quote] ++ u ", " ++ [quote] ++ u "reply" ++ [quote]
  ++ u ": " ++ [quote] ++ u "ok" ++ [quote] ++ u "}".

Definition json_loads_spam (s : pystr) : result pyval :=
  if str_eqb s doc_spam
  then Ok (PDict [(u "category", PStr (u "Spam")); (u "reply", PStr (u "ok"))])
  else json_loads_docs s.

(** ** Facts about the string operations *)

Lemma char_eqb_eq (a b : char) : char_eqb a b = true <-> a = b.
Proof. apply N.eqb_eq. Qed.

Lemma char_eqb_refl (a : char) : char_eqb a a = true.
Proof. apply N.eqb_refl. Qed.

Lemma str_eqb_eq (a b : pystr) : str_eqb a b = true <-> a = b.
Proof.
  revert b; induction a as [|x a IH]; intros [|y b]; simpl;
    try (split; [discriminate | discriminate]); try tauto.
  rewrite andb_true_iff, char_eqb_eq, IH.
  split; [intros [-> ->]; reflexivity | intros E; inversion E; auto].
Qed.

Lemma startswith_spec (p s : pystr) :
  startswith p s = true <-> exists r, s = p ++ r.
Proof.
  revert s; induction p as [|x p IH]; intros s; simpl.
  - split; [intros _; exists s; reflexivity | reflexivity].
  - destruct s as [|y s].
    + split; [discriminate | intros [r E]; discriminate].
    + rewrite andb_true_iff, char_eqb_eq, IH. split.
      * intros [-> [r ->]]. exists r. reflexivity.
      * intros [r E]. inversion E. split; [reflexivity | exists r; reflexivity].
Qed.

Lemma str_in_spec (p t : pystr) : str_in p t = true <-> substring p t.
Proof.
  unfold substring. induction t as [|c t IH]; simpl.
  - rewrite orb_false_r, startswith_spec. split.
    + intros [r E]. exists [], r. exact E.
    + intros [a [b E]]. destruct a; [exists b; exact E | discriminate].
  - rewrite orb_true_iff, startswith_spec, IH. split.
    + intros [[r E] | [a [b E]]].
      * exists [], r. exact E.
      * exists (c :: a), b. simpl. rewrite E. reflexivity.
    + intros [[|x a] [b E]].
      * left. exists b. exact E.
      * right. inversion E. exists a, b. reflexivity.
Qed.

Lemma str_in_false (p t : pystr) : str_in p t = false <-> ~ substring p t.
Proof.
  rewrite <- str_in_spec. destruct (str_in p t); split; intros; easy.
Qed.

Lemma substring_blank (p t : pystr) : substring p t -> blank t -> blank p.
Proof.
  intros [a [b ->]] Ht c Hc. apply Ht.
  apply in_or_app. right. apply in_or_app. left. exact Hc.
Qed.

Lemma blank_cons (c : char) (s : pystr) :
  blank (c :: s) <-> isspace c = true /\ blank s.
Proof.
  unfold blank. split.
  - intros H. split; [apply H; left; reflexivity | intros d Hd; apply H; right; exact Hd].
  - intros [Hc Hs] d [<- | Hd]; auto.
Qed.

Lemma blank_rev (s : pystr) : blank (rev s) <-> blank s.
Proof.
  unfold blank. split; intros H c Hc; apply H.
  - apply in_rev in Hc. exact Hc.
  - apply in_rev. exact Hc.
Qed.

Lemma lstrip_nil (s : pystr) : lstrip s = [] <-> blank s.
Proof.
  induction s as [|c s IH]; simpl.
  - split; [intros _ c [] | reflexivity].
  - rewrite blank_cons. destruct (isspace c) eqn:E.
    + rewrite IH. tauto.
    + split; [discriminate | intros [H _]; discriminate].
Qed.

Lemma lstrip_head (s r : pystr) (c : char) :
  lstrip s = c :: r -> isspace c = false.
Proof.
  induction s as [|d s IH]; simpl; [discriminate|].
  destruct (isspace d) eqn:E; [exact IH|].
  intros H. inversion H. subst. exact E.
Qed.

Lemma rstrip_nil (s : pystr) : rstrip s = [] <-> blank s.
Proof.
  unfold rstrip. split; intros H.
  - apply blank_rev, lstrip_nil.
    apply (f_equal (@rev char)) in H. rewrite rev_involutive in H. exact H.
  - apply blank_rev, lstrip_nil in H. rewrite H. reflexivity.
Qed.

Lemma strip_nil (s : pystr) : strip s = [] <-> blank s.
Proof.
  unfold strip. split.
  - intros H. apply rstrip_nil in H. apply lstrip_nil.
    destruct (lstrip s) as [|c r] eqn:E; [reflexivity|].
    apply lstrip_head in E.
    rewrite (H c (or_introl eq_refl)) in E. discriminate.
  - intros H. apply lstrip_nil in H. rewrite H. reflexivity.
Qed.

Lemma truthy_false (s : pystr) : truthy s = false <-> s = [].
Proof. destruct s; simpl; split; congruence. Qed.

(** The guard at the head of [classificar_fallback]. *)
Lemma blank_guard (texto : pystr) :
  negb (truthy texto) || negb (truthy (strip texto)) = true <-> blank texto.
Proof.
  rewrite orb_true_iff, !negb_true_iff, !truthy_false, strip_nil. split.
  - intros [-> | H]; [intros c [] | exact H].
  - intros H. right. exact H.
Qed.

Lemma or_empty_id (texto : pystr) : or_empty texto = texto.
Proof. destruct texto; reflexivity. Qed.

Lemma snippet_of_eq (texto : pystr) :
  snippet_of texto = replace_char LF SPACE (firstn 200 texto).
Proof. unfold snippet_of, slice_to. rewrite or_empty_id. reflexivity. Qed.

(** Where a character occurs first, and where last. *)
Lemma first_occurrence_unique (x : char) (a a' b b' : pystr) :
  a ++ x :: b = a' ++ x :: b' -> ~ In x a -> ~ In x a' -> a = a' /\ b = b'.
Proof.
  revert a'. induction a as [|y a IH]; intros [|y' a'] E Ha Ha'; simpl in *.
  - inversion E. auto.
  - inversion E. subst. exfalso. apply Ha'. left. reflexivity.
  - inversion E. subst. exfalso. apply Ha. left. reflexivity.
  - inversion E. subst. destruct (IH a') as [-> ->]; auto.
Qed.

Lemma last_occurrence_unique (x : char) (a a' b b' : pystr) :
  a ++ x :: b = a' ++ x :: b' -> ~ In x b -> ~ In x b' -> a = a' /\ b = b'.
Proof.
  intros E Hb Hb'.
  assert (R : rev b ++ x :: rev a = rev b' ++ x :: rev a').
  { apply (f_equal (@rev char)) in E.
    rewrite !rev_app_distr in E. simpl in E.
    rewrite <- !app_assoc in E. exact E. }
  apply first_occurrence_unique in R.
  - destruct R as [R1 R2].
    apply (f_equal (@rev char)) in R1, R2.
    rewrite !rev_involutive in R1, R2. auto.
  - intros H. apply Hb. apply in_rev. exact H.
  - intros H. apply Hb'. apply in_rev. exact H.
Qed.

Lemma rcut_some (sep : char) (s a b : pystr) :
  rcut sep s = Some (a, b) -> s = a ++ sep :: b /\ ~ In sep b.
Proof.
  revert a b. induction s as [|c s IH]; simpl; intros a b; [discriminate|].
  destruct (rcut sep s) as [[a0 b0]|] eqn:E.
  - intros H. inversion H. subst. destruct (IH a0 b eq_refl) as [-> Hb].
    split; [reflexivity | exact Hb].
  - destruct (char_eqb c sep) eqn:Ec; [|discriminate].
    intros H. inversion H. subst. apply char_eqb_eq in Ec. subst.
    split; [reflexivity|]. clear -E.
    induction b as [|d b IHb]; simpl in *; [tauto|].
    destruct (rcut sep b) as [[? ?]|]; [discriminate|].
    destruct (char_eqb d sep) eqn:Ed; [discriminate|].
    intros [-> | H]; [rewrite char_eqb_refl in Ed; discriminate | exact (IHb eq_refl H)].
Qed.

Lemma rcut_none (sep : char) (s : pystr) :
  rcut sep s = None <-> ~ In sep s.
Proof.
  induction s as [|c s IH]; simpl; [tauto|].
  destruct (rcut sep s) as [[a b]|] eqn:E.
  - split; [discriminate|]. intros H. exfalso.
    apply rcut_some in E. destruct E as [-> _]. apply H. right.
    apply in_or_app. right. left. reflexivity.
  - destruct (char_eqb c sep) eqn:Ec.
    + apply char_eqb_eq in Ec. subst. split; [discriminate | intros H; exfalso; auto].
    + split; [|reflexivity]. intros _ [-> | H].
      * rewrite char_eqb_refl in Ec. discriminate.
      * apply IH in H; auto.
Qed.

Lemma in_substring_char (c : char) (s : pystr) :
  str_in [c] s = true <-> In c s.
Proof.
  rewrite str_in_spec. unfold substring. split.
  - intros [a [b ->]]. apply in_or_app. right. left. reflexivity.
  - intros H. apply in_split in H. destruct H as [a [b ->]]. exists a, b. reflexivity.
Qed.

(** ** Facts about the pattern [r"\{.*\}"] *)

Lemma close_k_cons (x : char) (s : pystr) :
  close_k (x :: s) = if char_eqb x close_brace then Some s else None.
Proof. reflexivity. Qed.

(** Greedy [.*] followed by the closing brace stops at the last one. *)
Lemma dot_star_some (s r : pystr) :
  dot_star true close_k s = Some r ->
  exists mid, s = mid ++ close_brace :: r /\ ~ In close_brace r.
Proof.
  revert r. induction s as [|c s IH]; intros r; [discriminate|].
  cbn [dot_star dot_matches orb].
  destruct (dot_star true close_k s) as [r0|] eqn:E.
  - intros H. inversion H. subst. destruct (IH r eq_refl) as [mid [-> Hr]].
    exists (c :: mid). split; [reflexivity | exact Hr].
  - rewrite close_k_cons. destruct (char_eqb c close_brace) eqn:Ec; [|discriminate].
    intros H. inversion H. subst. apply char_eqb_eq in Ec. subst.
    exists []. split; [reflexivity|]. clear IH H.
    induction r as [|d r IHr]; [intros []|].
    cbn [dot_star dot_matches orb] in E.
    destruct (dot_star true close_k r); [discriminate|].
    rewrite close_k_cons in E.
    destruct (char_eqb d close_brace) eqn:Ed; [discriminate|].
    intros [-> | Hd]; [rewrite char_eqb_refl in Ed; discriminate | exact (IHr eq_refl Hd)].
Qed.

Lemma dot_star_none (s : pystr) :
  dot_star true close_k s = None -> ~ In close_brace s.
Proof.
  induction s as [|c s IH]; [intros _ []|].
  cbn [dot_star dot_matches orb].
  destruct (dot_star true close_k s); [discriminate|].
  rewrite close_k_cons. destruct (char_eqb c close_brace) eqn:Ec; [discriminate|].
  intros _ [-> | H]; [rewrite char_eqb_refl in Ec; discriminate | exact (IH eq_refl H)].
Qed.

Lemma match_here_json (s : pystr) :
  match_here true json_pattern s =
  match s with
  | [] => None
  | x :: s' => if char_eqb x open_brace then dot_star true close_k s' else None
  end.
Proof. destruct s; reflexivity. Qed.

Lemma re_search_cons (x : char) (s : pystr) :
  re_search true json_pattern (x :: s) =
  match match_here true json_pattern (x :: s) with
  | Some rest => Some (firstn (length (x :: s) - length rest) (x :: s))
  | None => re_search true json_pattern s
  end.
Proof. reflexivity. Qed.

Lemma firstn_less_suffix (a r : pystr) :
  firstn (length (a ++ r) - length r) (a ++ r) = a.
Proof.
  rewrite length_app, Nat.add_sub, firstn_app, firstn_all, Nat.sub_diag.
  simpl. apply app_nil_r.
Qed.

Lemma brace_span_has_close (s g : pystr) :
  brace_span s g -> In close_brace s.
Proof.
  intros [pre [mid [post [-> _]]]].
  rewrite !in_app_iff. simpl. tauto.
Qed.

Lemma brace_span_cons (x : char) (s g : pystr) :
  x <> open_brace -> brace_span s g -> brace_span (x :: s) g.
Proof.
  intros Hx [pre [mid [post [-> [Hpre [Hpost ->]]]]]].
  exists (x :: pre), mid, post. repeat split; auto.
  intros [E | H]; [apply Hx; exact E | exact (Hpre H)].
Qed.

Lemma brace_span_unique (s g g' : pystr) :
  brace_span s g -> brace_span s g' -> g = g'.
Proof.
  intros [pre [mid [post [E [Hpre [Hpost ->]]]]]]
         [pre' [mid' [post' [E' [Hpre' [Hpost' ->]]]]]].
  rewrite E in E'. simpl in E'.
  apply first_occurrence_unique in E'; auto. destruct E' as [_ E'].
  apply last_occurrence_unique in E'; auto. destruct E' as [-> _]. reflexivity.
Qed.

Lemma re_search_some (s g : pystr) :
  re_search true json_pattern s = Some g -> brace_span s g.
Proof.
  induction s as [|x s IH]; [discriminate|].
  rewrite re_search_cons, match_here_json.
  destruct (char_eqb x open_brace) eqn:Ex.
  - apply char_eqb_eq in Ex. subst x.
    destruct (dot_star true close_k s) as [rest|] eqn:E.
    + apply dot_star_some in E. destruct E as [mid [-> Hrest]].
      replace (open_brace :: mid ++ close_brace :: rest)
        with (([open_brace] ++ mid ++ [close_brace]) ++ rest)
        by (simpl; rewrite <- app_assoc; reflexivity).
      rewrite firstn_less_suffix.
      intros H. injection H as <-.
      exists [], mid, rest. repeat split; auto.
      simpl. rewrite <- app_assoc. reflexivity.
    + apply dot_star_none in E. intros H. apply IH in H.
      apply brace_span_has_close in H. contradiction.
  - intros H. apply brace_span_cons; [|apply IH; exact H].
    intros ->. rewrite char_eqb_refl in Ex. discriminate.
Qed.

Lemma re_search_none (s : pystr) :
  re_search true json_pattern s = None -> no_brace_span s.
Proof.
  induction s as [|x s IH].
  - intros _ [|? ?] mid post; discriminate.
  - rewrite re_search_cons, match_here_json.
    destruct (char_eqb x open_brace) eqn:Ex.
    + destruct (dot_star true close_k s) as [rest|] eqn:E; [discriminate|].
      apply dot_star_none in E. intros _ pre mid post H. apply E.
      destruct pre as [|y pre]; simpl in H; inversion H.
      * apply in_or_app. right. left. reflexivity.
      * apply in_or_app. right. right. apply in_or_app. right. left. reflexivity.
    + intros H pre mid post E. destruct pre as [|y pre]; simpl in E; inversion E.
      * subst. rewrite char_eqb_refl in Ex. discriminate.
      * subst. exact (IH H pre mid post eq_refl).
Qed.

(** The search answers the first-to-last brace span exactly when there
    is one. *)
Lemma re_search_span (s g : pystr) :
  re_search true json_pattern s = Some g <-> brace_span s g.
Proof.
  split; [apply re_search_some|]. intros H.
  destruct (re_search true json_pattern s) as [g'|] eqn:E.
  - apply re_search_some in E. f_equal. exact (brace_span_unique _ _ _ E H).
  - apply re_search_none in E. destruct H as [pre [mid [post [H _]]]].
    exfalso. exact (E pre mid post H).
Qed.

Lemma re_search_no_span (s : pystr) :
  re_search true json_pattern s = None <-> no_brace_span s.
Proof.
  split; [apply re_search_none|]. intros H.
  destruct (re_search true json_pattern s) as [g|] eqn:E; [|reflexivity].
  apply re_search_some in E. destruct E as [pre [mid [post [E _]]]].
  exfalso. exact (H pre mid post E).
Qed.

(** ** Facts about lower-casing and the keyword lists *)

Ltac to_arith :=
  repeat match goal with
  | H : _ || _ = true |- _ => apply orb_true_iff in H; destruct H
  | H : _ && _ = true |- _ => apply andb_true_iff in H; destruct H
  | H : negb _ = true |- _ => apply negb_true_iff in H
  | H : (_ <=? _)%N = true |- _ => apply N.leb_le in H
  | H : (_ <? _)%N = true |- _ => apply N.ltb_lt in H
  | H : (_ =? _)%N = true |- _ => apply N.eqb_eq in H
  | H : (_ =? _)%N = false |- _ => apply N.eqb_neq in H
  end.

Lemma lower_char_latin1_space (c : char) :
  isspace c = true -> lower_char_latin1 c = c.
Proof.
  intros H. unfold lower_char_latin1.
  destruct ((65 <=? c)%N && (c <=? 90)%N
            || (192 <=? c)%N && (c <=? 222)%N && negb (c =? 215)%N) eqn:E;
    [|reflexivity].
  exfalso. unfold isspace in H. to_arith; lia.
Qed.

Lemma lower_latin1_keeps_blank : keeps_blank lower_latin1.
Proof.
  intros s Hs c Hc. unfold lower_latin1 in Hc. apply in_map_iff in Hc.
  destruct Hc as [d [<- Hd]]. rewrite lower_char_latin1_space; auto.
Qed.

Lemma lower_latin1_lowers_ascii : lowers_ascii lower_latin1.
Proof.
  intros s Hs. unfold lower_latin1. apply map_ext_in. intros c Hc.
  specialize (Hs c Hc). unfold is_ascii in Hs. apply N.ltb_lt in Hs.
  unfold lower_char_latin1, lower_char_ascii.
  replace ((192 <=? c)%N) with false; [|symmetry; apply N.leb_gt; lia].
  simpl. rewrite orb_false_r. reflexivity.
Qed.

Lemma keyword_not_blank (ps : list pystr) (p : pystr) :
  forallb (existsb (fun c => negb (isspace c))) ps = true ->
  In p ps -> ~ blank p.
Proof.
  intros Hall Hp Hb. rewrite forallb_forall in Hall.
  specialize (Hall p Hp). apply existsb_exists in Hall.
  destruct Hall as [c [Hc Hn]]. rewrite (Hb c Hc) in Hn. discriminate.
Qed.

Lemma produtivas_not_blank (p : pystr) :
  In p palavras_produtivas -> ~ blank p.
Proof. apply keyword_not_blank. vm_compute. reflexivity. Qed.

Lemma find_keyword_some (ps : list pystr) (t q : pystr) :
  find (fun p => str_in p t) ps = Some q -> has_keyword ps t.
Proof.
  intros H. apply find_some in H. destruct H as [Hin Hq].
  exists q. split; [exact Hin | apply str_in_spec; exact Hq].
Qed.

Lemma find_keyword_none (ps : list pystr) (t : pystr) :
  find (fun p => str_in p t) ps = None <-> ~ has_keyword ps t.
Proof.
  split.
  - intros H [p [Hin Hp]]. apply str_in_spec in Hp.
    rewrite (find_none _ _ H p Hin) in Hp. discriminate.
  - intros H. destruct (find (fun p => str_in p t) ps) as [q|] eqn:E;
      [|reflexivity].
    exfalso. apply H. exact (find_keyword_some _ _ _ E).
Qed.

Lemma set_contains_allowed (x : pystr) :
  set_contains ALLOWED_EXTENSIONS x = true <-> x = u "txt" \/ x = u "pdf".
Proof.
  unfold set_contains, ALLOWED_EXTENSIONS. cbn [existsb].
  rewrite !orb_true_iff, !str_eqb_eq. intuition discriminate.
Qed.

(** ** Facts about the audit log *)

Section Properties.

Set Default Proof Using "Type".

Variable lower : pystr -> pystr.
Variable json_loads : pystr -> result pyval.
Variable str_of_other : pyval -> pystr.

(** [registrar_log] returns normally whatever the file system does. *)
Lemma registrar_log_run (texto : pystr) (categoria : pyval) (w : world) :
  exists w',
    registrar_log str_of_other texto categoria w = (Ok tt, w')
    /\ same_surroundings w w'
    /\ openai_api_key w' = openai_api_key w
    /\ audit_outcome
         (log_line str_of_other (now_isoformat w) categoria
                   (replace_char LF SPACE (firstn 200 texto))) w w'.
Proof.
  unfold registrar_log, try_except, bind, ask, file_append, audit_outcome.
  rewrite snippet_of_eq.
  destruct (append_fault w (LOG_FILE w)
              (log_line str_of_other (now_isoformat w) categoria
                 (replace_char LF SPACE (firstn 200 texto)))) as [e|];
    eexists; (split; [reflexivity|]); unfold same_surroundings; simpl; auto 10.
Qed.

(** ** The keyword classifier *)

Ltac run_log texto categoria w w' :=
  let Hrun := fresh "Hrun" in
  let Hsur := fresh "Hsur" in
  let Hkey := fresh "Hkey" in
  let Haud := fresh "Haud" in
  destruct (registrar_log_run texto categoria w)
    as [w' [Hrun [Hsur [Hkey Haud]]]];
  unfold bind; rewrite Hrun.

(** The four ways through [classificar_fallback]: each returns normally,
    after one call of [registrar_log] with the returned category. *)
Lemma classificar_fallback_run (texto : pystr) (w : world) :
  exists categoria resposta w',
    classificar_fallback lower str_of_other texto w = (Ok (categoria, resposta), w')
    /\ same_surroundings w w'
    /\ openai_api_key w' = openai_api_key w
    /\ audit_outcome
         (log_line str_of_other (now_isoformat w) (PStr categoria)
                   (replace_char LF SPACE (firstn 200 texto))) w w'
    /\ ((blank texto
         /\ categoria = Improdutivo /\ resposta = resposta_vazio)
        \/ (~ blank texto
            /\ has_keyword palavras_produtivas (lower texto)
            /\ categoria = Produtivo /\ resposta = resposta_produtiva)
        \/ (~ blank texto
            /\ ~ has_keyword palavras_produtivas (lower texto)
            /\ has_keyword palavras_improdutivas (lower texto)
            /\ categoria = Improdutivo /\ resposta = resposta_cortesia)
        \/ (~ blank texto
            /\ ~ has_keyword palavras_produtivas (lower texto)
            /\ ~ has_keyword palavras_improdutivas (lower texto)
            /\ categoria = Improdutivo /\ resposta = resposta_padrao)).
Proof.
  unfold classificar_fallback.
  destruct (negb (truthy texto) || negb (truthy (strip texto))) eqn:G.
  - apply blank_guard in G. rewrite or_empty_id.
    run_log texto (PStr Improdutivo) w w'.
    exists Improdutivo, resposta_vazio, w'. unfold ret.
    do 4 (split; [assumption || reflexivity|]). left. auto.
  - assert (NB : ~ blank texto).
    { intros B. apply blank_guard in B. rewrite B in G. discriminate. }
    cbv zeta.
    destruct (find (fun p => str_in p (lower texto)) palavras_produtivas)
      as [q|] eqn:P.
    + apply find_keyword_some in P.
      run_log texto (PStr Produtivo) w w'.
      exists Produtivo, resposta_produtiva, w'. unfold ret.
      do 4 (split; [assumption || reflexivity|]). right. left. auto.
    + apply find_keyword_none in P.
      destruct (find (fun p => str_in p (lower texto)) palavras_improdutivas)
        as [q|] eqn:I.
      * apply find_keyword_some in I.
        run_log texto (PStr Improdutivo) w w'.
        exists Improdutivo, resposta_cortesia, w'. unfold ret.
        do 4 (split; [assumption || reflexivity|]). right. right. left. auto.
      * apply find_keyword_none in I.
        run_log texto (PStr Improdutivo) w w'.
        exists Improdutivo, resposta_padrao, w'. unfold ret.
        do 4 (split; [assumption || reflexivity|]). right. right. right. auto.
Qed.

(** C1. A text whose lower-cased form contains a keyword of the productive
    list is classified Produtivo with the standard acknowledgment; the
    productive list is scanned to its end before the courtesy list is
    looked at, so the answer is the same whether or not a courtesy keyword
    occurs too, and wherever in the text or in its list either keyword
    stands. Lower-casing is asked only to keep whitespace-only text
    whitespace-only. *)
Theorem classificar_fallback_productive_wins
  (Hlower : keeps_blank lower) (texto : pystr) (w : world) :
  has_keyword palavras_produtivas (lower texto) ->
  fst (classificar_fallback lower str_of_other texto w) = Ok (Produtivo, resposta_produtiva).
Proof.
  intros [p [Hin Hsub]].
  destruct (classificar_fallback_run texto w)
    as [c [r [w' [E [_ [_ [_ H]]]]]]].
  rewrite E. simpl.
  destruct H as [[B _] | [[_ [_ [-> ->]]] | [[_ [N _]] | [_ [N _]]]]].
  - exfalso. apply (produtivas_not_blank _ Hin).
    apply (substring_blank _ _ Hsub). apply Hlower. exact B.
  - reflexivity.
  - exfalso. apply N. exists p. auto.
  - exfalso. apply N. exists p. auto.
Qed.

(** C5. A text that is neither empty nor whitespace-only and whose
    lower-cased form contains no productive keyword is classified
    Improdutivo, never Produtivo: with the courtesy reply when a courtesy
    keyword occurs in it, with the default reply otherwise; the two
    replies differ. *)
Theorem classificar_fallback_conservative (texto : pystr) (w : world) :
  ~ blank texto ->
  ~ has_keyword palavras_produtivas (lower texto) ->
  exists resposta,
    fst (classificar_fallback lower str_of_other texto w) = Ok (Improdutivo, resposta)
    /\ Improdutivo <> Produtivo
    /\ (has_keyword palavras_improdutivas (lower texto) ->
        resposta = resposta_cortesia)
    /\ (~ has_keyword palavras_improdutivas (lower texto) ->
        resposta = resposta_padrao)
    /\ resposta_cortesia <> resposta_padrao.
Proof.
  intros NB NP.
  destruct (classificar_fallback_run texto w)
    as [c [r [w' [E [_ [_ [_ H]]]]]]].
  rewrite E. simpl. exists r.
  assert (D1 : Improdutivo <> Produtivo) by (vm_compute; discriminate).
  assert (D2 : resposta_cortesia <> resposta_padrao)
    by (vm_compute; discriminate).
  destruct H as [[B _] | [[_ [P _]] | [[_ [_ [I [-> ->]]]] | [_ [_ [I [-> ->]]]]]]].
  - contradiction.
  - contradiction.
  - repeat split; auto. intros NI. contradiction.
  - repeat split; auto. intros HI. contradiction.
Qed.

(** C9. [classificar_fallback] returns normally on every string, with a
    pair whose category is one of the two category names. *)
Theorem classificar_fallback_total (texto : pystr) (w : world) :
  exists categoria resposta w',
    classificar_fallback lower str_of_other texto w = (Ok (categoria, resposta), w')
    /\ (categoria = Produtivo \/ categoria = Improdutivo).
Proof.
  destruct (classificar_fallback_run texto w)
    as [c [r [w' [E [_ [_ [_ H]]]]]]].
  exists c, r, w'. split; [exact E|].
  destruct H as [[_ [-> _]] | [[_ [_ [-> _]]] | [[_ [_ [_ [-> _]]]] | [_ [_ [_ [-> _]]]]]]];
    auto.
Qed.

(** C4, as the code has it. An empty or whitespace-only text is
    classified Improdutivo with the reply "Obrigado pela mensagem!", and
    the classification calls [registrar_log]: the log file gains one line
    with category Improdutivo when the append succeeds, and stays as it
    was when the append fails. *)
Theorem classificar_fallback_blank (texto : pystr) (w : world) :
  blank texto ->
  exists w',
    classificar_fallback lower str_of_other texto w
      = (Ok (Improdutivo, u "Obrigado pela mensagem!"), w')
    /\ audit_outcome
         (log_line str_of_other (now_isoformat w) (PStr Improdutivo)
                   (replace_char LF SPACE (firstn 200 texto))) w w'.
Proof.
  intros B.
  destruct (classificar_fallback_run texto w)
    as [c [r [w' [E [_ [_ [A H]]]]]]].
  exists w'.
  destruct H as [[_ [-> ->]] | [[NB _] | [[NB _] | [NB _]]]];
    try contradiction.
  split; [exact E | exact A].
Qed.

(** ** The OpenAI adapter *)

Lemma same_surroundings_refl (w : world) : same_surroundings w w.
Proof. unfold same_surroundings. auto. Qed.

Lemma same_surroundings_trans (w1 w2 w3 : world) :
  same_surroundings w1 w2 -> same_surroundings w2 w3 ->
  same_surroundings w1 w3.
Proof.
  unfold same_surroundings.
  intros [A1 [A2 [A3 [A4 A5]]]] [B1 [B2 [B3 [B4 B5]]]].
  repeat split; congruence.
Qed.

Lemma same_surroundings_key (k : option pystr) (w : world) :
  same_surroundings w (set_openai_api_key k w).
Proof. unfold same_surroundings. simpl. auto. Qed.

(** A log call made later in the same run, with the log file untouched in
    between, is a log call of the run. *)
Lemma audit_outcome_from (line : pystr) (w w1 w2 : world) :
  same_surroundings w w1 -> LOG_FILE w1 = LOG_FILE w ->
  audit_outcome line w1 w2 -> audit_outcome line w w2.
Proof.
  unfold audit_outcome, same_surroundings.
  intros [_ [_ [_ [_ F]]]] L. rewrite F, L. auto.
Qed.

Ltac unfold_try :=
  unfold openai_try, bind, modify, ask, lift, ret; cbn [fst snd];
  cbn [ChatCompletion_create set_openai_api_key].

(** The [try] body ends in one of two ways: an exception before anything
    was written to the log, or a pair after one call of
    [registrar_log]. *)
Lemma openai_try_cases (key texto : pystr) (w : world) :
  (exists e w',
     openai_try json_loads str_of_other key texto w = (Raise e, w')
     /\ same_surroundings w w' /\ LOG_FILE w' = LOG_FILE w)
  \/ (exists category reply w',
        openai_try json_loads str_of_other key texto w = (Ok (Some (category, reply)), w')
        /\ same_surroundings w w'
        /\ audit_outcome
             (log_line str_of_other (now_isoformat w) category
                       (replace_char LF SPACE (firstn 200 texto))) w w').
Proof.
  pose proof (same_surroundings_key (Some key) w) as S1.
  unfold_try.
  destruct (ChatCompletion_create w key (prompt_of texto)) as [resp|e];
    [|left; eauto].
  destruct (message_content resp) as [conteudo|e]; [|left; eauto].
  destruct (search_json conteudo) as [[g|]|e]; [| |left; eauto].
  - destruct (json_loads g) as [parsed|e]; [|left; eauto].
    destruct (method_get parsed (u "category") (PStr Produtivo))
      as [category|e]; [|left; eauto].
    destruct (method_get parsed (u "reply") (PStr [])) as [reply|e];
      [|left; eauto].
    destruct (registrar_log_run texto category (set_openai_api_key (Some key) w))
      as [w' [Hrun [Hsur [_ Haud]]]].
    rewrite Hrun. right. exists category, reply, w'.
    split; [reflexivity|]. split.
    + exact (same_surroundings_trans _ _ _ S1 Hsur).
    + apply audit_outcome_from with (w1 := set_openai_api_key (Some key) w);
        [exact S1 | reflexivity | exact Haud].
  - destruct (registrar_log_run texto (PStr Produtivo)
                (set_openai_api_key (Some key) w))
      as [w' [Hrun [Hsur [_ Haud]]]].
    rewrite Hrun. right. exists (PStr Produtivo), conteudo, w'.
    split; [reflexivity|]. split.
    + exact (same_surroundings_trans _ _ _ S1 Hsur).
    + apply audit_outcome_from with (w1 := set_openai_api_key (Some key) w);
        [exact S1 | reflexivity | exact Haud].
Qed.

Lemma same_surroundings_logger (l : list logrec) (w : world) :
  same_surroundings w (set_logger l w).
Proof. unfold same_surroundings. simpl. auto. Qed.

(** The adapter as a whole: it returns normally, with [None] and an
    untouched log file, or with a pair after one log call. *)
Lemma classificar_com_openai_cases (texto : pystr) (w : world) :
  exists res w',
    classificar_com_openai json_loads str_of_other texto w = (Ok res, w')
    /\ same_surroundings w w'
    /\ match res with
       | None => LOG_FILE w' = LOG_FILE w
       | Some (category, _) =>
         audit_outcome
           (log_line str_of_other (now_isoformat w) category
                     (replace_char LF SPACE (firstn 200 texto))) w w'
       end.
Proof.
  pose proof (same_surroundings_refl w) as R.
  unfold classificar_com_openai, bind, ask, ret.
  destruct (openai w); simpl; [|exists None, w; auto].
  destruct (OPENAI_API_KEY w) as [key|]; [|exists None, w; auto].
  destruct (truthy key); simpl; [|exists None, w; auto].
  unfold try_except.
  destruct (openai_try_cases key texto w)
    as [[e [w' [E [Hs Hl]]]] | [category [reply [w' [E [Hs Ha]]]]]];
    rewrite E.
  - unfold logger_exception, bind, modify, ret. simpl.
    eexists None, _. split; [reflexivity|]. split.
    + exact (same_surroundings_trans _ _ _ Hs (same_surroundings_logger _ w')).
    + simpl. exact Hl.
  - exists (Some (category, reply)), w'. auto.
Qed.

(** Without the module, or without a usable key, the adapter answers
    [None] at once. *)
Lemma classificar_com_openai_off (texto : pystr) (w : world) :
  openai w = false \/ OPENAI_API_KEY w = None \/ OPENAI_API_KEY w = Some [] ->
  classificar_com_openai json_loads str_of_other texto w = (Ok None, w).
Proof.
  intros H. unfold classificar_com_openai, bind, ask, ret.
  destruct H as [H | H]; [rewrite H; reflexivity|].
  destruct (openai w); [|reflexivity]. simpl.
  destruct H as [-> | ->]; reflexivity.
Qed.

(** C6. [classificar_com_openai] never ends in an exception. It returns
    [None] without the [openai] module, without a key (absent or empty),
    and whenever anything inside its [try] raises: the remote call, the
    walk through the response object, the search on a content that is not
    a string, [json.loads] on the extracted span, or [get] on a decoded
    value that is not an object. *)
Theorem classificar_com_openai_never_raises (texto : pystr) (w : world) :
  (exists res w', classificar_com_openai json_loads str_of_other texto w = (Ok res, w'))
  /\ (openai w = false -> classificar_com_openai json_loads str_of_other texto w = (Ok None, w))
  /\ (OPENAI_API_KEY w = None \/ OPENAI_API_KEY w = Some [] ->
      classificar_com_openai json_loads str_of_other texto w = (Ok None, w))
  /\ (forall key,
        openai w = true -> OPENAI_API_KEY w = Some key -> key <> [] ->
        (forall e w1,
           openai_try json_loads str_of_other key texto w = (Raise e, w1) ->
           fst (classificar_com_openai json_loads str_of_other texto w) = Ok None)
        /\ (forall e,
              ChatCompletion_create w key (prompt_of texto) = Raise e ->
              fst (classificar_com_openai json_loads str_of_other texto w) = Ok None)
        /\ (forall resp,
              ChatCompletion_create w key (prompt_of texto) = Ok resp ->
              (forall e,
                 message_content resp = Raise e ->
                 fst (classificar_com_openai json_loads str_of_other texto w) = Ok None)
              /\ (forall conteudo,
                    message_content resp = Ok conteudo ->
                    (forall e,
                       search_json conteudo = Raise e ->
                       fst (classificar_com_openai json_loads str_of_other texto w) = Ok None)
                    /\ (forall g,
                          search_json conteudo = Ok (Some g) ->
                          (forall e,
                             json_loads g = Raise e ->
                             fst (classificar_com_openai json_loads str_of_other texto w) = Ok None)
                          /\ (forall parsed e,
                                json_loads g = Ok parsed ->
                                method_get parsed (u "category")
                                           (PStr Produtivo) = Raise e ->
                                fst (classificar_com_openai json_loads str_of_other texto w)
                                = Ok None))))).
Proof.
  split.
  { destruct (classificar_com_openai_cases texto w) as [res [w' [E _]]].
    exists res, w'. exact E. }
  split.
  { intros H. apply classificar_com_openai_off. left. exact H. }
  split.
  { intros H. apply classificar_com_openai_off. right. exact H. }
  intros key Hlib Hkey Hne.
  assert (T : truthy key = true) by (destruct key; [contradiction | reflexivity]).
  assert (U : forall e w1,
             openai_try json_loads str_of_other key texto w = (Raise e, w1) ->
             fst (classificar_com_openai json_loads str_of_other texto w) = Ok None).
  { intros e w1 E. unfold classificar_com_openai, bind, ask, ret.
    rewrite Hlib. simpl. rewrite Hkey, T. simpl.
    unfold try_except. rewrite E. reflexivity. }
  split; [exact U|].
  split.
  { intros e E.
    apply (U e (set_openai_api_key (Some key) w)).
    unfold_try. rewrite E. reflexivity. }
  intros resp Hresp. split.
  { intros e E.
    apply (U e (set_openai_api_key (Some key) w)).
    unfold_try. rewrite Hresp, E. reflexivity. }
  intros conteudo Hcont. split.
  { intros e E.
    apply (U e (set_openai_api_key (Some key) w)).
    unfold_try. rewrite Hresp, Hcont, E. reflexivity. }
  intros g Hg. split.
  { intros e E.
    apply (U e (set_openai_api_key (Some key) w)).
    unfold_try. rewrite Hresp, Hcont, Hg, E. reflexivity. }
  intros parsed e Hp E.
  apply (U e (set_openai_api_key (Some key) w)).
  unfold_try. rewrite Hresp, Hcont, Hg, Hp, E. reflexivity.
Qed.

(** C2. Without the [openai] module or without a key in the environment
    (absent, or empty), [classificar_com_openai] returns [None] on every
    text and leaves everything as it was, and [classificar_email] returns
    the pair [classificar_fallback] returns, with the same effects. *)
Theorem classificar_email_without_credential (texto : pystr) (w : world) :
  openai w = false \/ OPENAI_API_KEY w = None \/ OPENAI_API_KEY w = Some [] ->
  classificar_com_openai json_loads str_of_other texto w = (Ok None, w)
  /\ exists categoria resposta w',
       classificar_fallback lower str_of_other texto w = (Ok (categoria, resposta), w')
       /\ classificar_email lower json_loads str_of_other texto w = (Ok (PStr categoria, PStr resposta), w').
Proof.
  intros H.
  assert (E : classificar_com_openai json_loads str_of_other texto w = (Ok None, w)).
  { apply classificar_com_openai_off. exact H. }
  split; [exact E|].
  destruct (classificar_fallback_run texto w) as [c [r [w' [F _]]]].
  exists c, r, w'. split; [exact F|].
  unfold classificar_email, bind, ret. rewrite E, F. reflexivity.
Qed.

(** With the module and a key in place the adapter is its [try]. *)
Lemma classificar_com_openai_configured (key texto : pystr) (w : world) :
  openai w = true -> OPENAI_API_KEY w = Some key -> key <> [] ->
  classificar_com_openai json_loads str_of_other texto w =
  try_except (openai_try json_loads str_of_other key texto)
    (fun e => logger_exception (u "Erro ao chamar OpenAI: %s") e ;; ret None)
    w.
Proof.
  intros Hlib Hkey Hne.
  unfold classificar_com_openai, bind at 1, ask. rewrite Hlib. simpl.
  unfold bind at 1. rewrite Hkey.
  destruct key; [contradiction | reflexivity].
Qed.

(** What the program returns does not depend on the log file, the clock
    or the outcome of a write: [registrar_log] returns normally in every
    state, and nothing reads the log back. *)
Lemma bind_registrar_log_result {A} (texto : pystr) (categoria : pyval)
      (a : A) (w : world) :
  fst (bind (registrar_log str_of_other texto categoria)
            (fun _ => ret a) w) = Ok a.
Proof.
  destruct (registrar_log_run texto categoria w) as [w' [E _]].
  unfold bind, ret. rewrite E. reflexivity.
Qed.

Lemma classificar_fallback_stateless (texto : pystr) (w1 w2 : world) :
  fst (classificar_fallback lower str_of_other texto w1)
  = fst (classificar_fallback lower str_of_other texto w2).
Proof.
  unfold classificar_fallback.
  destruct (negb (truthy texto) || negb (truthy (strip texto))).
  - rewrite !bind_registrar_log_result. reflexivity.
  - cbv zeta.
    destruct (find (fun p => str_in p (lower texto)) palavras_produtivas).
    + rewrite !bind_registrar_log_result. reflexivity.
    + destruct (find (fun p => str_in p (lower texto)) palavras_improdutivas);
        rewrite !bind_registrar_log_result; reflexivity.
Qed.

Lemma openai_try_stateless (key texto : pystr) (w w2 : world) :
  ChatCompletion_create w2 = ChatCompletion_create w ->
  fst (openai_try json_loads str_of_other key texto w2)
  = fst (openai_try json_loads str_of_other key texto w).
Proof.
  intros C. unfold_try. rewrite C.
  destruct (ChatCompletion_create w key (prompt_of texto)) as [resp|e];
    [|reflexivity].
  destruct (message_content resp) as [conteudo|e]; [|reflexivity].
  destruct (search_json conteudo) as [[g|]|e]; [| |reflexivity].
  - destruct (json_loads g) as [parsed|e]; [|reflexivity].
    destruct (method_get parsed (u "category") (PStr Produtivo))
      as [category|e]; [|reflexivity].
    destruct (method_get parsed (u "reply") (PStr [])) as [reply|e];
      [|reflexivity].
    destruct (registrar_log_run texto category
                (set_openai_api_key (Some key) w)) as [w' [E _]].
    destruct (registrar_log_run texto category
                (set_openai_api_key (Some key) w2)) as [w2' [E2 _]].
    rewrite E, E2. reflexivity.
  - destruct (registrar_log_run texto (PStr Produtivo)
                (set_openai_api_key (Some key) w)) as [w' [E _]].
    destruct (registrar_log_run texto (PStr Produtivo)
                (set_openai_api_key (Some key) w2)) as [w2' [E2 _]].
    rewrite E, E2. reflexivity.
Qed.

Lemma classificar_com_openai_stateless (texto : pystr) (w w2 : world) :
  openai w2 = openai w ->
  OPENAI_API_KEY w2 = OPENAI_API_KEY w ->
  ChatCompletion_create w2 = ChatCompletion_create w ->
  fst (classificar_com_openai json_loads str_of_other texto w2)
  = fst (classificar_com_openai json_loads str_of_other texto w).
Proof.
  intros L K C.
  destruct (openai w) eqn:Hl.
  - destruct (OPENAI_API_KEY w) as [[|c key]|] eqn:Hk.
    + rewrite !classificar_com_openai_off; auto.
    + rewrite (classificar_com_openai_configured (c :: key) texto w Hl Hk)
        by discriminate.
      rewrite (classificar_com_openai_configured (c :: key) texto w2 L K)
        by discriminate.
      pose proof (openai_try_stateless (c :: key) texto w w2 C) as T.
      unfold try_except.
      destruct (openai_try json_loads str_of_other (c :: key) texto w)
        as [r1 w1].
      destruct (openai_try json_loads str_of_other (c :: key) texto w2)
        as [r2 w2'].
      cbn [fst] in T. subst r2.
      destruct r1; reflexivity.
    + rewrite !classificar_com_openai_off; auto.
  - rewrite !classificar_com_openai_off; auto.
Qed.

Lemma classificar_email_stateless (texto : pystr) (w w2 : world) :
  openai w2 = openai w ->
  OPENAI_API_KEY w2 = OPENAI_API_KEY w ->
  ChatCompletion_create w2 = ChatCompletion_create w ->
  fst (classificar_email lower json_loads str_of_other texto w2)
  = fst (classificar_email lower json_loads str_of_other texto w).
Proof.
  intros L K C.
  pose proof (classificar_com_openai_stateless texto w w2 L K C) as T.
  destruct (classificar_com_openai_cases texto w) as [res [w1 [E _]]].
  destruct (classificar_com_openai_cases texto w2) as [res2 [w2' [E2 _]]].
  rewrite E, E2 in T. cbn [fst] in T. injection T as ->.
  unfold classificar_email, bind. rewrite E, E2.
  destruct res as [r|]; [reflexivity|].
  pose proof (classificar_fallback_stateless texto w2' w1) as F.
  destruct (classificar_fallback lower str_of_other texto w2')
    as [[fb2|e2] x2];
  destruct (classificar_fallback lower str_of_other texto w1)
    as [[fb1|e1] x1];
    cbn [fst] in F; try discriminate; injection F as ->; reflexivity.
Qed.

(** The run behind C3: the pair and what becomes of the log file. *)
Lemma classificar_email_audit_run (texto : pystr) (w : world) :
  exists category reply w',
    classificar_email lower json_loads str_of_other texto w = (Ok (category, reply), w')
    /\ let snippet := replace_char LF SPACE (firstn 200 texto) in
       let line := log_line str_of_other (now_isoformat w) category snippet in
       (append_fault w (LOG_FILE w) line = None ->
        LOG_FILE w' = LOG_FILE w ++ [line])
       /\ (append_fault w (LOG_FILE w) line <> None ->
           LOG_FILE w' = LOG_FILE w)
       /\ (forall s, category = PStr s ->
           line = now_isoformat w ++ u " | " ++ s ++ u " | " ++ snippet ++ nl).
Proof.
  assert (K : forall category reply w',
             classificar_email lower json_loads str_of_other texto w = (Ok (category, reply), w') ->
             audit_outcome
               (log_line str_of_other (now_isoformat w) category
                         (replace_char LF SPACE (firstn 200 texto))) w w' ->
             exists category reply w',
               classificar_email lower json_loads str_of_other texto w = (Ok (category, reply), w')
               /\ let snippet := replace_char LF SPACE (firstn 200 texto) in
                  let line := log_line str_of_other (now_isoformat w) category snippet in
                  (append_fault w (LOG_FILE w) line = None ->
                   LOG_FILE w' = LOG_FILE w ++ [line])
                  /\ (append_fault w (LOG_FILE w) line <> None ->
                      LOG_FILE w' = LOG_FILE w)
                  /\ (forall s, category = PStr s ->
                      line = now_isoformat w ++ u " | " ++ s ++ u " | "
                             ++ snippet ++ nl)).
  { intros category reply w' E A. exists category, reply, w'.
    split; [exact E|]. cbv zeta. unfold audit_outcome in A.
    destruct (append_fault w (LOG_FILE w)
                (log_line str_of_other (now_isoformat w) category
                   (replace_char LF SPACE (firstn 200 texto)))) as [e|].
    - split; [discriminate|]. split; [intros _; exact A|].
      intros s ->. reflexivity.
    - split; [intros _; exact A|]. split; [intros N; contradiction|].
      intros s ->. reflexivity. }
  destruct (classificar_com_openai_cases texto w)
    as [[[category reply]|] [w1 [E [Hs Ha]]]].
  - apply (K category reply w1); [|exact Ha].
    unfold classificar_email, bind, ret. rewrite E. reflexivity.
  - destruct (classificar_fallback_run texto w1)
      as [c [r [w' [F [_ [_ [A _]]]]]]].
    apply (K (PStr c) (PStr r) w').
    + unfold classificar_email, bind, ret. rewrite E, F. reflexivity.
    + apply audit_outcome_from with (w1 := w1); [exact Hs | exact Ha |].
      destruct Hs as [_ [_ [_ [Hn _]]]]. rewrite <- Hn. exact A.
Qed.

(** C3, as the code has it. Every call of [classificar_email] returns a
    pair after exactly one call of [registrar_log], on the remote path and
    on the fallback path alike. The line it writes shows the returned
    category and the first 200 characters of the text with newlines
    replaced by spaces. When the file system accepts the append the log
    file gains exactly that line; when it refuses, the log file is
    unchanged. The pair is the same either way: it is the pair of every
    run with the same text, module, key and remote service, whatever the
    log file, the clock and the outcome of the write are. *)
Theorem classificar_email_audit (texto : pystr) (w : world) :
  exists category reply w',
    classificar_email lower json_loads str_of_other texto w = (Ok (category, reply), w')
    /\ let snippet := replace_char LF SPACE (firstn 200 texto) in
       let line := log_line str_of_other (now_isoformat w) category snippet in
       (append_fault w (LOG_FILE w) line = None ->
        LOG_FILE w' = LOG_FILE w ++ [line])
       /\ (append_fault w (LOG_FILE w) line <> None ->
           LOG_FILE w' = LOG_FILE w)
       /\ (forall s, category = PStr s ->
           line = now_isoformat w ++ u " | " ++ s ++ u " | " ++ snippet ++ nl)
       /\ (forall w2,
             openai w2 = openai w ->
             OPENAI_API_KEY w2 = OPENAI_API_KEY w ->
             ChatCompletion_create w2 = ChatCompletion_create w ->
             fst (classificar_email lower json_loads str_of_other texto w2)
             = Ok (category, reply)).
Proof.
  destruct (classificar_email_audit_run texto w)
    as [category [reply [w' [E [H1 [H2 H3]]]]]].
  exists category, reply, w'. split; [exact E|]. cbv zeta.
  split; [exact H1|]. split; [exact H2|]. split; [exact H3|].
  intros w2 L K C.
  rewrite (classificar_email_stateless texto w w2 L K C), E. reflexivity.
Qed.

Lemma method_get_dict (d : list (pystr * pyval)) (key : pystr)
      (default : pyval) :
  method_get (PDict d) key default = Ok (get_or d key default).
Proof. unfold method_get, get_or. destruct (dict_find d key); reflexivity. Qed.

(** A pair comes out of the [try] in two ways only. *)
Lemma openai_try_ok_inv (key texto : pystr) (w w' : world)
      (category reply : pyval) :
  openai_try json_loads str_of_other key texto w = (Ok (Some (category, reply)), w') ->
  exists resp conteudo,
    ChatCompletion_create w key (prompt_of texto) = Ok resp
    /\ message_content resp = Ok (PStr conteudo)
    /\ ((no_brace_span conteudo
         /\ category = PStr Produtivo /\ reply = PStr conteudo)
        \/ (exists g d,
              brace_span conteudo g
              /\ json_loads g = Ok (PDict d)
              /\ category = get_or d (u "category") (PStr Produtivo)
              /\ reply = get_or d (u "reply") (PStr []))).
Proof.
  unfold_try.
  destruct (ChatCompletion_create w key (prompt_of texto)) as [resp|e] eqn:C;
    [|discriminate].
  destruct (message_content resp) as [conteudo|e] eqn:Mc; [|discriminate].
  destruct conteudo as [| | | |s| |]; try discriminate.
  cbn [search_json].
  destruct (re_search true json_pattern s) as [g|] eqn:R.
  - apply re_search_span in R.
    destruct (json_loads g) as [parsed|e] eqn:J; [|discriminate].
    destruct parsed as [| | | | | |d]; try discriminate.
    rewrite !method_get_dict.
    destruct (registrar_log_run texto (get_or d (u "category") (PStr Produtivo))
                (set_openai_api_key (Some key) w)) as [w2 [Hrun _]].
    rewrite Hrun. intros H. injection H as <- <- <-.
    exists resp, s. split; [reflexivity|]. split; [exact Mc|].
    right. exists g, d. auto.
  - apply re_search_no_span in R.
    destruct (registrar_log_run texto (PStr Produtivo)
                (set_openai_api_key (Some key) w)) as [w2 [Hrun _]].
    rewrite Hrun. intros H. injection H as <- <- <-.
    exists resp, s. split; [reflexivity|]. split; [exact Mc|].
    left. auto.
Qed.

(** C7. After a remote call that answered with a text [conteudo]: when
    [conteudo] has a span [g] from its first opening brace to its last
    closing brace, that span is what [json.loads] is given; a decoded
    object yields its [category] and [reply] fields, category Produtivo
    when the field is absent; when [conteudo] has no such span the answer
    is Produtivo with the whole of [conteudo] as reply. The search itself
    answers exactly that span. *)
Theorem classificar_com_openai_parses_response
  (texto key : pystr) (resp : pyval) (conteudo : pystr) (w : world) :
  openai w = true -> OPENAI_API_KEY w = Some key -> key <> [] ->
  ChatCompletion_create w key (prompt_of texto) = Ok resp ->
  message_content resp = Ok (PStr conteudo) ->
  (forall g, search_json (PStr conteudo) = Ok (Some g) <-> brace_span conteudo g)
  /\ (search_json (PStr conteudo) = Ok None <-> no_brace_span conteudo)
  /\ (forall g,
        brace_span conteudo g ->
        (forall d,
           json_loads g = Ok (PDict d) ->
           fst (classificar_com_openai json_loads str_of_other texto w)
           = Ok (Some (get_or d (u "category") (PStr Produtivo),
                       get_or d (u "reply") (PStr []))))
        /\ (forall d,
              json_loads g = Ok (PDict d) ->
              dict_find d (u "category") = None ->
              exists reply,
                fst (classificar_com_openai json_loads str_of_other texto w)
                = Ok (Some (PStr Produtivo, reply))))
  /\ (no_brace_span conteudo ->
      fst (classificar_com_openai json_loads str_of_other texto w)
      = Ok (Some (PStr Produtivo, PStr conteudo))).
Proof.
  intros Hlib Hkey Hne Hresp Hcont.
  rewrite (@classificar_com_openai_configured key texto w Hlib Hkey Hne).
  split.
  { intros g. cbn [search_json]. rewrite <- re_search_span.
    split; [intros H; injection H as H; exact H | intros ->; reflexivity]. }
  split.
  { cbn [search_json]. rewrite <- re_search_no_span.
    split; [intros H; injection H as H; exact H | intros ->; reflexivity]. }
  assert (P : forall g d,
             brace_span conteudo g -> json_loads g = Ok (PDict d) ->
             fst (try_except (openai_try json_loads str_of_other key texto)
                    (fun e =>
                       logger_exception (u "Erro ao chamar OpenAI: %s") e ;;
                       ret None) w)
             = Ok (Some (get_or d (u "category") (PStr Produtivo),
                         get_or d (u "reply") (PStr [])))).
  { intros g d Hg Hd. apply re_search_span in Hg.
    unfold try_except. unfold_try. rewrite Hresp, Hcont.
    cbn [search_json]. rewrite Hg, Hd, !method_get_dict.
    destruct (registrar_log_run texto (get_or d (u "category") (PStr Produtivo))
                (set_openai_api_key (Some key) w)) as [w2 [Hrun _]].
    rewrite Hrun. reflexivity. }
  split.
  { intros g Hg. split.
    - intros d Hd. exact (P g d Hg Hd).
    - intros d Hd Hnone. exists (get_or d (u "reply") (PStr [])).
      rewrite (P g d Hg Hd). unfold get_or at 1. rewrite Hnone. reflexivity. }
  intros Hno. apply re_search_no_span in Hno.
  unfold try_except. unfold_try. rewrite Hresp, Hcont.
  cbn [search_json]. rewrite Hno.
  destruct (registrar_log_run texto (PStr Produtivo)
              (set_openai_api_key (Some key) w)) as [w2 [Hrun _]].
  rewrite Hrun. reflexivity.
Qed.

(** C8, as the code has it. Every reply of the keyword classifier is a
    non-empty string. A reply of a successful remote classification is
    the [reply] field of the decoded object, the empty string when the
    object has no such field, or the whole response text when it has no
    brace span: it is empty when the field is absent or empty, or when the
    response text is empty. *)
Theorem reply_text_when_empty :
  (forall texto w,
     exists categoria resposta w',
       classificar_fallback lower str_of_other texto w = (Ok (categoria, resposta), w')
       /\ resposta <> [])
  /\ (forall texto w w' category reply,
        classificar_com_openai json_loads str_of_other texto w = (Ok (Some (category, reply)), w') ->
        exists key resp conteudo,
          OPENAI_API_KEY w = Some key
          /\ ChatCompletion_create w key (prompt_of texto) = Ok resp
          /\ message_content resp = Ok (PStr conteudo)
          /\ ((no_brace_span conteudo /\ reply = PStr conteudo)
              \/ (exists g d,
                    brace_span conteudo g
                    /\ json_loads g = Ok (PDict d)
                    /\ reply = get_or d (u "reply") (PStr [])))).
Proof.
  split.
  - intros texto w.
    destruct (classificar_fallback_run texto w)
      as [c [r [w' [E [_ [_ [_ H]]]]]]].
    exists c, r, w'. split; [exact E|].
    destruct H as [[_ [_ ->]] | [[_ [_ [_ ->]]] | [[_ [_ [_ [_ ->]]]] | [_ [_ [_ [_ ->]]]]]]];
      vm_compute; discriminate.
  - intros texto w w' category reply.
    unfold classificar_com_openai, bind at 1, ask.
    destruct (openai w); simpl; [|unfold ret; discriminate].
    unfold bind at 1.
    destruct (OPENAI_API_KEY w) as [key|]; [|unfold ret; discriminate].
    destruct (truthy key); simpl; [|unfold ret; discriminate].
    unfold try_except.
    destruct (openai_try json_loads str_of_other key texto w) as [[res|e] w1] eqn:E.
    + intros H. injection H as -> ->.
      apply openai_try_ok_inv in E.
      destruct E as [resp [conteudo [C [Mc H]]]].
      exists key, resp, conteudo.
      split; [reflexivity|]. split; [exact C|]. split; [exact Mc|].
      destruct H as [[N [_ R]] | [g [d [B [J [_ R]]]]]].
      * left. auto.
      * right. exists g, d. auto.
    + unfold logger_exception, bind, modify, ret. discriminate.
Qed.

(** ** The extension check *)

(** With a dot in the name, the check looks at what follows the last
    one. *)
Lemma allowed_file_dotted (stem ext : pystr) :
  ~ In DOT ext ->
  allowed_file lower (stem ++ [DOT] ++ ext)
  = Ok (set_contains ALLOWED_EXTENSIONS (lower ext)).
Proof.
  intros Hext. unfold allowed_file.
  assert (D : In DOT (stem ++ [DOT] ++ ext)).
  { apply in_or_app. right. left. reflexivity. }
  rewrite (proj2 (in_substring_char DOT _) D).
  unfold rsplit1.
  destruct (rcut DOT (stem ++ [DOT] ++ ext)) as [[a b]|] eqn:E.
  - apply rcut_some in E. destruct E as [E Hb].
    apply last_occurrence_unique in E; auto.
    destruct E as [_ ->]. reflexivity.
  - apply rcut_none in E. contradiction.
Qed.

(** C10. [allowed_file] returns normally, and accepts a name exactly when
    the name has a dot and what follows its last dot, lower-cased, is
    "txt" or "pdf". With a lower-casing that treats ASCII as Python does:
    "A.TXT" is accepted, a name without a dot is rejected, "a.exe.txt" is
    accepted and "a.txt.exe" is rejected. *)
Theorem allowed_file_last_extension (Hlower : lowers_ascii lower) :
  (forall filename,
     exists b,
       allowed_file lower filename = Ok b
       /\ (b = true <->
           In DOT filename
           /\ exists stem ext,
                filename = stem ++ [DOT] ++ ext
                /\ ~ In DOT ext
                /\ (lower ext = u "txt" \/ lower ext = u "pdf")))
  /\ allowed_file lower (u "A.TXT") = Ok true
  /\ allowed_file lower (u "README") = Ok false
  /\ allowed_file lower (u "a.exe.txt") = Ok true
  /\ allowed_file lower (u "a.txt.exe") = Ok false.
Proof.
  assert (L : forall s,
             forallb is_ascii s = true -> lower s = map lower_char_ascii s).
  { intros s Hs. apply Hlower. apply forallb_forall. exact Hs. }
  split.
  { intros filename.
    destruct (in_dec N.eq_dec DOT filename) as [D | D].
    - destruct (rcut DOT filename) as [[a b]|] eqn:E;
        [|apply rcut_none in E; contradiction].
      apply rcut_some in E. destruct E as [-> Hb].
      exists (set_contains ALLOWED_EXTENSIONS (lower b)).
      split; [apply (allowed_file_dotted a b Hb)|].
      rewrite set_contains_allowed. split.
      + intros H. split; [exact D|]. exists a, b. auto.
      + intros [_ [stem [ext [E [Hext H]]]]].
        apply last_occurrence_unique in E; auto.
        destruct E as [_ ->]. exact H.
    - exists false. split.
      + unfold allowed_file.
        destruct (str_in [DOT] filename) eqn:S; [|reflexivity].
        apply in_substring_char in S. contradiction.
      + split; [discriminate | intros [H _]; contradiction]. }
  split.
  { change (u "A.TXT") with (u "A" ++ [DOT] ++ u "TXT").
    rewrite allowed_file_dotted by (vm_compute; intuition discriminate).
    rewrite L by reflexivity. reflexivity. }
  split.
  { reflexivity. }
  split.
  { change (u "a.exe.txt") with (u "a.exe" ++ [DOT] ++ u "txt").
    rewrite allowed_file_dotted by (vm_compute; intuition discriminate).
    rewrite L by reflexivity. reflexivity. }
  change (u "a.txt.exe") with (u "a.txt" ++ [DOT] ++ u "exe").
  rewrite allowed_file_dotted by (vm_compute; intuition discriminate).
  rewrite L by reflexivity. reflexivity.
Qed.

End Properties.

(** ** Runs on concrete inputs *)

Example u_ascii : u "status" = [115; 116; 97; 116; 117; 115]%N.
Proof. reflexivity. Qed.

Example u_two_bytes : u "ção" = [231; 227; 111]%N.
Proof. reflexivity. Qed.

Example u_three_bytes : u "—" = [8212]%N.
Proof. reflexivity. Qed.

Example strip_spaces : strip (u "  oi  ") = u "oi".
Proof. reflexivity. Qed.

Example search_greedy :
  re_search true json_pattern (u "a {b} c {d} e") = Some (u "{b} c {d}").
Proof. reflexivity. Qed.

Example search_needs_dotall :
  re_search false json_pattern (u "{" ++ nl ++ u "}") = None
  /\ re_search true json_pattern (u "{" ++ nl ++ u "}")
     = Some (u "{" ++ nl ++ u "}").
Proof. split; reflexivity. Qed.

Lemma blank_of_forallb (s : pystr) : forallb isspace s = true -> blank s.
Proof. intros H c Hc. exact (proj1 (forallb_forall isspace s) H c Hc). Qed.

Lemma not_blank_of_existsb (s : pystr) :
  existsb (fun c => negb (isspace c)) s = true -> ~ blank s.
Proof.
  intros H B. apply existsb_exists in H. destruct H as [c [Hc Hn]].
  rewrite (B c Hc) in Hn. discriminate.
Qed.

Lemma has_keyword_of_find (ps : list pystr) (t : pystr) :
  match find (fun p => str_in p t) ps with Some _ => true | None => false end
  = true ->
  has_keyword ps t.
Proof.
  destruct (find (fun p => str_in p t) ps) as [q|] eqn:E; [|discriminate].
  intros _. exact (find_keyword_some _ _ _ E).
Qed.

Lemma no_keyword_of_find (ps : list pystr) (t : pystr) :
  find (fun p => str_in p t) ps = None -> ~ has_keyword ps t.
Proof. apply find_keyword_none. Qed.

Lemma classificar_fallback_productive_wins_witness :
  has_keyword palavras_improdutivas (lower_latin1 texto_obrigado_ajuda)
  /\ has_keyword palavras_produtivas (lower_latin1 texto_obrigado_ajuda)
  /\ fst (classificar_fallback lower_latin1 str_of_constants
            texto_obrigado_ajuda world_offline)
     = Ok (Produtivo, resposta_produtiva).
Proof.
  split; [apply has_keyword_of_find; vm_compute; reflexivity|].
  assert (H : has_keyword palavras_produtivas
                (lower_latin1 texto_obrigado_ajuda))
    by (apply has_keyword_of_find; vm_compute; reflexivity).
  split; [exact H|].
  exact (classificar_fallback_productive_wins lower_latin1 str_of_constants
           lower_latin1_keeps_blank texto_obrigado_ajuda world_offline H).
Defined.

Lemma classificar_fallback_conservative_witness :
  ~ blank (u "Feliz Natal a todos!")
  /\ ~ has_keyword palavras_produtivas (lower_latin1 (u "Feliz Natal a todos!"))
  /\ exists resposta,
       fst (classificar_fallback lower_latin1 str_of_constants
              (u "Feliz Natal a todos!") world_offline)
       = Ok (Improdutivo, resposta)
       /\ Improdutivo <> Produtivo
       /\ (has_keyword palavras_improdutivas
             (lower_latin1 (u "Feliz Natal a todos!")) ->
           resposta = resposta_cortesia)
       /\ (~ has_keyword palavras_improdutivas
               (lower_latin1 (u "Feliz Natal a todos!")) ->
           resposta = resposta_padrao)
       /\ resposta_cortesia <> resposta_padrao.
Proof.
  assert (NB : ~ blank (u "Feliz Natal a todos!"))
    by (apply not_blank_of_existsb; vm_compute; reflexivity).
  assert (NP : ~ has_keyword palavras_produtivas
                   (lower_latin1 (u "Feliz Natal a todos!")))
    by (apply no_keyword_of_find; vm_compute; reflexivity).
  split; [exact NB|]. split; [exact NP|].
  exact (classificar_fallback_conservative lower_latin1 str_of_constants
           (u "Feliz Natal a todos!") world_offline NB NP).
Defined.

Lemma classificar_fallback_blank_witness :
  blank texto_em_branco
  /\ exists w',
       classificar_fallback lower_latin1 str_of_constants
         texto_em_branco world_offline
       = (Ok (Improdutivo, u "Obrigado pela mensagem!"), w')
       /\ audit_outcome
            (log_line str_of_constants (now_isoformat world_offline)
               (PStr Improdutivo)
               (replace_char LF SPACE (firstn 200 texto_em_branco)))
            world_offline w'.
Proof.
  assert (B : blank texto_em_branco)
    by (apply blank_of_forallb; vm_compute; reflexivity).
  split; [exact B|].
  exact (classificar_fallback_blank lower_latin1 str_of_constants
           texto_em_branco world_offline B).
Defined.

(** C4 as stated fails where the log file cannot be written: the blank
    text is classified, and no entry is appended. *)
Lemma classificar_fallback_blank_counterexample :
  blank texto_em_branco
  /\ fst (classificar_fallback lower_latin1 str_of_constants
            texto_em_branco world_readonly)
     = Ok (Improdutivo, u "Obrigado pela mensagem!")
  /\ LOG_FILE (snd (classificar_fallback lower_latin1 str_of_constants
                      texto_em_branco world_readonly))
     = LOG_FILE world_readonly
  /\ ~ exists entry,
         LOG_FILE (snd (classificar_fallback lower_latin1 str_of_constants
                          texto_em_branco world_readonly))
         = LOG_FILE world_readonly ++ [entry].
Proof.
  split; [apply blank_of_forallb; vm_compute; reflexivity|].
  split; [vm_compute; reflexivity|].
  split; [vm_compute; reflexivity|].
  intros [entry H]. vm_compute in H. discriminate.
Qed.

Lemma classificar_email_without_credential_witness :
  openai world_offline = false
  /\ classificar_com_openai json_loads_docs str_of_constants
       texto_obrigado_ajuda world_offline
     = (Ok None, world_offline)
  /\ exists categoria resposta w',
       classificar_fallback lower_latin1 str_of_constants
         texto_obrigado_ajuda world_offline
       = (Ok (categoria, resposta), w')
       /\ classificar_email lower_latin1 json_loads_docs str_of_constants
            texto_obrigado_ajuda world_offline
          = (Ok (PStr categoria, PStr resposta), w').
Proof.
  split; [reflexivity|].
  exact (classificar_email_without_credential lower_latin1 json_loads_docs
           str_of_constants texto_obrigado_ajuda world_offline
           (or_introl eq_refl)).
Defined.

Lemma classificar_email_audit_witness :
  exists category reply w',
    classificar_email lower_latin1 json_loads_docs str_of_constants
      texto_urgente world_offline
    = (Ok (category, reply), w')
    /\ LOG_FILE w'
       = [log_line str_of_constants ts0 category
            (replace_char LF SPACE (firstn 200 texto_urgente))].
Proof.
  destruct (classificar_email_audit lower_latin1 json_loads_docs
              str_of_constants texto_urgente world_offline)
    as [category [reply [w' [E [A _]]]]].
  exists category, reply, w'. split; [exact E|].
  exact (A eq_refl).
Defined.

(** C3 as stated fails where the log file cannot be written: the text is
    classified, and no entry is appended. *)
Lemma classificar_email_audit_counterexample :
  fst (classificar_email lower_latin1 json_loads_docs str_of_constants
         texto_urgente world_readonly)
  = Ok (PStr Produtivo, PStr resposta_produtiva)
  /\ LOG_FILE (snd (classificar_email lower_latin1 json_loads_docs
                      str_of_constants texto_urgente world_readonly))
     = LOG_FILE world_readonly
  /\ ~ exists entry,
         LOG_FILE (snd (classificar_email lower_latin1 json_loads_docs
                          str_of_constants texto_urgente world_readonly))
         = LOG_FILE world_readonly ++ [entry].
Proof.
  split; [vm_compute; reflexivity|].
  split; [vm_compute; reflexivity|].
  intros [entry H]. vm_compute in H. discriminate.
Qed.

Lemma classificar_com_openai_never_raises_witness :
  openai world_remote_down = true
  /\ ChatCompletion_create world_remote_down (u "sk-test")
       (prompt_of texto_urgente)
     = Raise (OpenAIError (u "timeout"))
  /\ fst (classificar_com_openai json_loads_docs str_of_constants
            texto_urgente world_remote_down)
     = Ok None.
Proof.
  split; [reflexivity|]. split; [reflexivity|].
  destruct (classificar_com_openai_never_raises json_loads_docs
              str_of_constants texto_urgente world_remote_down)
    as [_ [_ [_ H]]].
  destruct (H (u "sk-test") eq_refl eq_refl) as [_ [R _]];
    [vm_compute; discriminate|].
  exact (R (OpenAIError (u "timeout")) eq_refl).
Defined.

Lemma classificar_com_openai_parses_response_witness :
  brace_span (u "Segue: " ++ doc_reply_only ++ u " fim") doc_reply_only
  /\ json_loads_docs doc_reply_only = Ok (PDict [(u "reply", PStr (u "ok"))])
  /\ fst (classificar_com_openai json_loads_docs str_of_constants
            texto_urgente
            (world_remote (PStr (u "Segue: " ++ doc_reply_only ++ u " fim"))))
     = Ok (Some (PStr Produtivo, PStr (u "ok"))).
Proof.
  assert (B : brace_span (u "Segue: " ++ doc_reply_only ++ u " fim")
                doc_reply_only)
    by (apply re_search_span; vm_compute; reflexivity).
  split; [exact B|]. split; [reflexivity|].
  destruct (classificar_com_openai_parses_response json_loads_docs
              str_of_constants texto_urgente (u "sk-test")
              (chat_response
                 (PStr (u "Segue: " ++ doc_reply_only ++ u " fim")))
              (u "Segue: " ++ doc_reply_only ++ u " fim")
              (world_remote
                 (PStr (u "Segue: " ++ doc_reply_only ++ u " fim")))
              eq_refl eq_refl)
    as [_ [_ [H _]]];
    [vm_compute; discriminate | reflexivity | reflexivity |].
  destruct (H doc_reply_only B) as [H1 _].
  exact (H1 [(u "reply", PStr (u "ok"))] eq_refl).
Defined.

Lemma reply_text_when_empty_witness :
  exists key resp conteudo,
    OPENAI_API_KEY (world_remote (PStr doc_category_only)) = Some key
    /\ ChatCompletion_create (world_remote (PStr doc_category_only)) key
         (prompt_of texto_urgente) = Ok resp
    /\ message_content resp = Ok (PStr conteudo)
    /\ ((no_brace_span conteudo /\ PStr [] = PStr conteudo)
        \/ (exists g d,
              brace_span conteudo g
              /\ json_loads_docs g = Ok (PDict d)
              /\ PStr [] = get_or d (u "reply") (PStr []))).
Proof.
  destruct (reply_text_when_empty lower_latin1 json_loads_docs
              str_of_constants) as [_ H].
  apply (H texto_urgente (world_remote (PStr doc_category_only))
           (snd (classificar_com_openai json_loads_docs str_of_constants
                   texto_urgente (world_remote (PStr doc_category_only))))
           (PStr Improdutivo) (PStr [])).
  vm_compute. reflexivity.
Defined.

(** C8 as stated fails on a successful remote classification whose JSON
    object has no [reply] field: the reply is the empty string. *)
Lemma reply_text_counterexample :
  message_content (chat_response (PStr doc_category_only))
  = Ok (PStr doc_category_only)
  /\ json_loads_docs doc_category_only
     = Ok (PDict [(u "category", PStr Improdutivo)])
  /\ fst (classificar_com_openai json_loads_docs str_of_constants
            texto_urgente (world_remote (PStr doc_category_only)))
     = Ok (Some (PStr Improdutivo, PStr []))
  /\ fst (classificar_email lower_latin1 json_loads_docs str_of_constants
            texto_urgente (world_remote (PStr doc_category_only)))
     = Ok (PStr Improdutivo, PStr []).
Proof. repeat split; vm_compute; reflexivity. Qed.

(** The same with no brace span at all: an empty response text comes back
    as the reply. *)
Example reply_text_empty_content :
  fst (classificar_com_openai json_loads_docs str_of_constants
         texto_urgente (world_remote (PStr [])))
  = Ok (Some (PStr Produtivo, PStr [])).
Proof. vm_compute. reflexivity. Qed.

Lemma allowed_file_last_extension_witness :
  lowers_ascii lower_latin1
  /\ allowed_file lower_latin1 (u "A.TXT") = Ok true
  /\ allowed_file lower_latin1 (u "README") = Ok false
  /\ allowed_file lower_latin1 (u "a.exe.txt") = Ok true
  /\ allowed_file lower_latin1 (u "a.txt.exe") = Ok false.
Proof.
  split; [exact lower_latin1_lowers_ascii|].
  exact (proj2 (allowed_file_last_extension lower_latin1
                  lower_latin1_lowers_ascii)).
Defined.

(** ** More about the audit log *)

Lemma snippet_of_no_newline (texto : pystr) : ~ In LF (snippet_of texto).
Proof.
  rewrite snippet_of_eq. unfold replace_char. intros H.
  apply in_map_iff in H. destruct H as [c [Hc _]].
  destruct (char_eqb c LF) eqn:E; [discriminate|].
  apply char_eqb_eq in Hc. rewrite Hc in E. discriminate.
Qed.

(** X1. The snippet of a log line: at most 200 characters, none of them a
    newline; a text of at most 200 characters without a newline is its
    own snippet. *)
Theorem snippet_of_shape (texto : pystr) :
  length (snippet_of texto) = Nat.min 200 (length texto)
  /\ ~ In LF (snippet_of texto)
  /\ (length texto <= 200 -> ~ In LF texto -> snippet_of texto = texto).
Proof.
  split; [|split; [apply snippet_of_no_newline|]];
    rewrite snippet_of_eq; unfold replace_char.
  - rewrite length_map, length_firstn. reflexivity.
  - idtac.
    + intros Hlen Hnl. rewrite firstn_all2 by exact Hlen.
      rewrite <- (map_id texto) at 2. apply map_ext_in. intros c Hc.
      destruct (char_eqb c LF) eqn:E; [|reflexivity].
      apply char_eqb_eq in E. subst c. contradiction.
Qed.

Lemma snippet_of_shape_witness :
  length (u "oi, tudo bem?") <= 200
  /\ ~ In LF (u "oi, tudo bem?")
  /\ snippet_of (u "oi, tudo bem?") = u "oi, tudo bem?".
Proof.
  assert (L : length (u "oi, tudo bem?") <= 200) by (vm_compute; lia).
  assert (N : ~ In LF (u "oi, tudo bem?"))
    by (vm_compute; intuition discriminate).
  split; [exact L|]. split; [exact N|].
  exact (proj2 (proj2 (snippet_of_shape (u "oi, tudo bem?"))) L N).
Defined.

Lemma Produtivo_no_newline : ~ In LF Produtivo.
Proof. vm_compute. intuition discriminate. Qed.

Lemma Improdutivo_no_newline : ~ In LF Improdutivo.
Proof. vm_compute. intuition discriminate. Qed.

Lemma log_body_no_newline (ts c sn : pystr) :
  ~ In LF ts -> ~ In LF c -> ~ In LF sn ->
  ~ In LF (ts ++ u " | " ++ c ++ u " | " ++ sn).
Proof.
  intros Hts Hc Hsn.
  assert (Hb : ~ In LF (u " | ")) by (vm_compute; intuition discriminate).
  rewrite !in_app_iff. tauto.
Qed.

(** X2. [registrar_log] in full: the line is appended, or the failure is
    recorded as one warning and nothing else changes. *)
Theorem registrar_log_outcomes (str_of_other : pyval -> pystr)
        (texto : pystr) (categoria : pyval) (w : world) :
  let line := log_line str_of_other (now_isoformat w) categoria
                       (snippet_of texto) in
  (append_fault w (LOG_FILE w) line = None ->
   registrar_log str_of_other texto categoria w
   = (Ok tt, set_LOG_FILE (LOG_FILE w ++ [line]) w))
  /\ (forall e,
        append_fault w (LOG_FILE w) line = Some e ->
        registrar_log str_of_other texto categoria w
        = (Ok tt,
           set_logger
             (logger w ++ [LogWarning (u "Falha ao gravar log local: %s") e])
             w)).
Proof.
  cbv zeta. unfold registrar_log, try_except, bind, ask, file_append.
  split.
  - intros H. rewrite H. reflexivity.
  - intros e H. rewrite H. reflexivity.
Qed.

(** X3. One audit entry is one line: when the clock's text has no newline,
    what [classificar_fallback] adds to the log file, if anything, is a
    single chunk that ends in a newline and has no other. *)
Theorem classificar_fallback_logs_one_line
        (lower : pystr -> pystr) (str_of_other : pyval -> pystr)
        (texto : pystr) (w : world) :
  ~ In LF (now_isoformat w) ->
  LOG_FILE (snd (classificar_fallback lower str_of_other texto w))
  = LOG_FILE w
  \/ exists body,
       LOG_FILE (snd (classificar_fallback lower str_of_other texto w))
       = LOG_FILE w ++ [body ++ [LF]]
       /\ ~ In LF body.
Proof.
  intros Hts.
  destruct (classificar_fallback_run lower str_of_other texto w)
    as [c [r [w' [E [_ [_ [A H]]]]]]].
  rewrite E. cbn [snd]. unfold audit_outcome in A.
  destruct (append_fault w (LOG_FILE w)
              (log_line str_of_other (now_isoformat w) (PStr c)
                 (replace_char LF SPACE (firstn 200 texto)))) as [e|];
    [left; exact A|].
  right.
  exists (now_isoformat w ++ u " | " ++ c ++ u " | "
          ++ replace_char LF SPACE (firstn 200 texto)).
  split.
  - rewrite A. unfold log_line, fstr, nl. f_equal. f_equal.
    rewrite <- !app_assoc. reflexivity.
  - assert (Hc : ~ In LF c).
    { destruct H as [[_ [-> _]] | [[_ [_ [-> _]]] | [[_ [_ [_ [-> _]]]] | [_ [_ [_ [-> _]]]]]]];
        first [exact Produtivo_no_newline | exact Improdutivo_no_newline]. }
    assert (Hs : ~ In LF (replace_char LF SPACE (firstn 200 texto))).
    { rewrite <- snippet_of_eq. apply snippet_of_no_newline. }
    apply log_body_no_newline; assumption.
Qed.

(** ** More about the keyword classifier *)

Lemma isspace_printable (c : char) :
  (33 <= c)%N -> (c <= 132)%N -> isspace c = false.
Proof.
  intros H1 H2. unfold isspace.
  repeat (apply orb_false_intro);
    first [ apply N.eqb_neq; lia
          | apply andb_false_iff; left; apply N.leb_gt; lia
          | apply andb_false_iff; right; apply N.leb_gt; lia ].
Qed.

Lemma isspace_lower_char_ascii (c : char) :
  isspace (lower_char_ascii c) = isspace c.
Proof.
  unfold lower_char_ascii.
  destruct ((65 <=? c)%N && (c <=? 90)%N) eqn:E; [|reflexivity].
  to_arith. rewrite !isspace_printable by lia. reflexivity.
Qed.

Lemma blank_map_lower (s : pystr) :
  blank (map lower_char_ascii s) <-> blank s.
Proof.
  unfold blank. split.
  - intros H c Hc. rewrite <- isspace_lower_char_ascii.
    apply H. apply in_map. exact Hc.
  - intros H c Hc. apply in_map_iff in Hc. destruct Hc as [d [<- Hd]].
    rewrite isspace_lower_char_ascii. apply H. exact Hd.
Qed.

Lemma substring_app (p t a b : pystr) :
  substring p t -> substring p (a ++ t ++ b).
Proof.
  intros [x [y ->]]. exists (a ++ x), (y ++ b).
  rewrite <- !app_assoc. reflexivity.
Qed.

Lemma has_keyword_app (ps : list pystr) (t a b : pystr) :
  has_keyword ps t -> has_keyword ps (a ++ t ++ b).
Proof.
  intros [p [Hin Hsub]]. exists p. split; [exact Hin|].
  apply substring_app. exact Hsub.
Qed.

(** The pair [classificar_fallback] returns is a function of whether the
    text is blank and of its lower-cased form; the state plays no part. *)
Lemma classificar_fallback_pair_determined
      (lower : pystr -> pystr) (str_of_other : pyval -> pystr)
      (t1 t2 : pystr) (w1 w2 : world) :
  (blank t1 <-> blank t2) -> lower t1 = lower t2 ->
  fst (classificar_fallback lower str_of_other t1 w1)
  = fst (classificar_fallback lower str_of_other t2 w2).
Proof.
  intros Hb Hl.
  destruct (classificar_fallback_run lower str_of_other t1 w1)
    as [c1 [r1 [w1' [E1 [_ [_ [_ H1]]]]]]].
  destruct (classificar_fallback_run lower str_of_other t2 w2)
    as [c2 [r2 [w2' [E2 [_ [_ [_ H2]]]]]]].
  rewrite E1, E2. cbn [fst]. rewrite <- Hl in H2.
  destruct H1 as [[B1 [-> ->]] | [[B1 [P1 [-> ->]]] | [[B1 [P1 [I1 [-> ->]]]] | [B1 [P1 [I1 [-> ->]]]]]]];
  destruct H2 as [[B2 [-> ->]] | [[B2 [P2 [-> ->]]] | [[B2 [P2 [I2 [-> ->]]]] | [B2 [P2 [I2 [-> ->]]]]]]];
    first [exfalso; tauto | reflexivity].
Qed.

(** X4. The category is Produtivo exactly when a productive keyword occurs in
    the lower-cased text, and Improdutivo exactly when none does. *)
Theorem classificar_fallback_produtivo_iff
        (lower : pystr -> pystr) (str_of_other : pyval -> pystr)
        (Hlower : keeps_blank lower) (texto : pystr) (w : world) :
  exists categoria resposta,
    fst (classificar_fallback lower str_of_other texto w)
    = Ok (categoria, resposta)
    /\ (categoria = Produtivo
        <-> has_keyword palavras_produtivas (lower texto))
    /\ (categoria = Improdutivo
        <-> ~ has_keyword palavras_produtivas (lower texto)).
Proof.
  destruct (classificar_fallback_run lower str_of_other texto w)
    as [c [r [w' [E [_ [_ [_ H]]]]]]].
  exists c, r. rewrite E. split; [reflexivity|].
  assert (D : Produtivo <> Improdutivo) by (vm_compute; discriminate).
  assert (NB : blank texto ->
               ~ has_keyword palavras_produtivas (lower texto)).
  { intros B [p [Hin Hsub]]. apply (produtivas_not_blank _ Hin).
    apply (substring_blank _ _ Hsub). apply Hlower. exact B. }
  destruct H as [[B [-> _]] | [[_ [P [-> _]]] | [[_ [P [_ [-> _]]]] | [_ [P [_ [-> _]]]]]]].
  - specialize (NB B). split; split; intros; try tauto; congruence.
  - split; split; intros; try tauto; congruence.
  - split; split; intros; try tauto; congruence.
  - split; split; intros; try tauto; congruence.
Qed.

(** X5. Keyword matching ignores ASCII case: two ASCII texts that differ
    only in the case of their letters get the same category and reply. *)
Theorem classificar_fallback_case_insensitive
        (lower : pystr -> pystr) (str_of_other : pyval -> pystr)
        (Hlower : lowers_ascii lower) (t1 t2 : pystr) (w1 w2 : world) :
  (forall c, In c t1 -> is_ascii c = true) ->
  (forall c, In c t2 -> is_ascii c = true) ->
  map lower_char_ascii t1 = map lower_char_ascii t2 ->
  fst (classificar_fallback lower str_of_other t1 w1)
  = fst (classificar_fallback lower str_of_other t2 w2).
Proof.
  intros A1 A2 E. apply classificar_fallback_pair_determined.
  - rewrite <- (blank_map_lower t1), <- (blank_map_lower t2), E. tauto.
  - rewrite (Hlower t1 A1), (Hlower t2 A2). exact E.
Qed.

(** X6. A productive ASCII text stays productive inside any longer ASCII
    text. *)
Theorem classificar_fallback_productive_inside
        (lower : pystr -> pystr) (str_of_other : pyval -> pystr)
        (Hlower : lowers_ascii lower) (a t b : pystr) (w : world) :
  (forall c, In c (a ++ t ++ b) -> is_ascii c = true) ->
  has_keyword palavras_produtivas (lower t) ->
  fst (classificar_fallback lower str_of_other (a ++ t ++ b) w)
  = Ok (Produtivo, resposta_produtiva).
Proof.
  intros A K.
  assert (At : forall c, In c t -> is_ascii c = true).
  { intros c Hc. apply A. rewrite !in_app_iff. tauto. }
  rewrite (Hlower t At) in K.
  assert (K' : has_keyword palavras_produtivas (lower (a ++ t ++ b))).
  { rewrite (Hlower _ A), !map_app. apply has_keyword_app. exact K. }
  destruct (classificar_fallback_run lower str_of_other (a ++ t ++ b) w)
    as [c [r [w' [E [_ [_ [_ H]]]]]]].
  rewrite E. cbn [fst].
  destruct H as [[B _] | [[_ [_ [-> ->]]] | [[_ [N _]] | [_ [N _]]]]];
    try reflexivity; try contradiction.
  exfalso. destruct K' as [p [Hin Hsub]].
  apply (produtivas_not_blank _ Hin). apply (substring_blank _ _ Hsub).
  rewrite (Hlower _ A). apply blank_map_lower. exact B.
Qed.

(** ** More about the OpenAI adapter and the orchestrator *)

Ltac run_try :=
  unfold openai_try, bind, modify, ask, lift, ret; cbn [fst snd];
  cbn [ChatCompletion_create set_openai_api_key].

(** Inside the [try] the key is always stored, and an exception leaves
    the log file and the logger as they were. *)
Ltac fin_try :=
  cbn [fst snd openai_api_key set_openai_api_key LOG_FILE logger]; auto.

Lemma openai_try_effects
      (json_loads : pystr -> result pyval) (str_of_other : pyval -> pystr)
      (key texto : pystr) (w : world) :
  openai_api_key (snd (openai_try json_loads str_of_other key texto w))
  = Some key
  /\ (forall e,
        fst (openai_try json_loads str_of_other key texto w) = Raise e ->
        LOG_FILE (snd (openai_try json_loads str_of_other key texto w))
        = LOG_FILE w
        /\ logger (snd (openai_try json_loads str_of_other key texto w))
           = logger w).
Proof.
  run_try.
  destruct (ChatCompletion_create w key (prompt_of texto)) as [resp|e0];
    [|fin_try].
  destruct (message_content resp) as [conteudo|e0]; [|fin_try].
  destruct (search_json conteudo) as [[g|]|e0]; [| |fin_try].
  - destruct (json_loads g) as [parsed|e0]; [|fin_try].
    destruct (method_get parsed (u "category") (PStr Produtivo))
      as [category|e0]; [|fin_try].
    destruct (method_get parsed (u "reply") (PStr [])) as [reply|e0];
      [|fin_try].
    destruct (registrar_log_run str_of_other texto category
                (set_openai_api_key (Some key) w))
      as [w' [Hrun [_ [Hkey _]]]].
    rewrite Hrun. cbn [fst snd]. split; [exact Hkey | discriminate].
  - destruct (registrar_log_run str_of_other texto (PStr Produtivo)
                (set_openai_api_key (Some key) w))
      as [w' [Hrun [_ [Hkey _]]]].
    rewrite Hrun. cbn [fst snd]. split; [exact Hkey | discriminate].
Qed.

(** X7. A failed remote attempt: the adapter answers [None], the audit log
    is untouched, the logger gains exactly one [logger.exception] record
    carrying the exception, and [openai.api_key] stays set. *)
Theorem classificar_com_openai_failure
        (json_loads : pystr -> result pyval) (str_of_other : pyval -> pystr)
        (key texto : pystr) (w w1 : world) (e : pyexn) :
  openai w = true -> OPENAI_API_KEY w = Some key -> key <> [] ->
  openai_try json_loads str_of_other key texto w = (Raise e, w1) ->
  exists w',
    classificar_com_openai json_loads str_of_other texto w = (Ok None, w')
    /\ LOG_FILE w' = LOG_FILE w
    /\ logger w'
       = logger w ++ [LogException (u "Erro ao chamar OpenAI: %s") e]
    /\ openai_api_key w' = Some key.
Proof.
  intros Hlib Hkey Hne E.
  rewrite (classificar_com_openai_configured json_loads str_of_other
             key texto w Hlib Hkey Hne).
  destruct (openai_try_effects json_loads str_of_other key texto w)
    as [K F].
  rewrite E in K, F. cbn [fst snd] in K, F.
  destruct (F e eq_refl) as [L G].
  unfold try_except. rewrite E.
  unfold logger_exception, bind, modify, ret.
  eexists. split; [reflexivity|].
  cbn [fst snd openai_api_key LOG_FILE logger set_logger].
  rewrite L, G. auto.
Qed.

(** X8. The category of a decoded response is returned as it is, whatever
    value it is: [classificar_email] can return a category that is
    neither Produtivo nor Improdutivo. *)
Theorem classificar_email_category_unchecked
        (lower : pystr -> pystr) (json_loads : pystr -> result pyval)
        (str_of_other : pyval -> pystr)
        (texto key : pystr) (resp : pyval) (conteudo g : pystr)
        (d : list (pystr * pyval)) (v : pyval) (w : world) :
  openai w = true -> OPENAI_API_KEY w = Some key -> key <> [] ->
  ChatCompletion_create w key (prompt_of texto) = Ok resp ->
  message_content resp = Ok (PStr conteudo) ->
  brace_span conteudo g ->
  json_loads g = Ok (PDict d) ->
  dict_find d (u "category") = Some v ->
  fst (classificar_email lower json_loads str_of_other texto w)
  = Ok (v, get_or d (u "reply") (PStr [])).
Proof.
  intros Hlib Hkey Hne Hresp Hcont Hg Hd Hv.
  apply re_search_span in Hg.
  unfold classificar_email. unfold bind at 1.
  rewrite (classificar_com_openai_configured json_loads str_of_other
             key texto w Hlib Hkey Hne).
  unfold try_except. run_try. rewrite Hresp, Hcont.
  cbn [search_json]. rewrite Hg, Hd, !method_get_dict.
  destruct (registrar_log_run str_of_other texto
              (get_or d (u "category") (PStr Produtivo))
              (set_openai_api_key (Some key) w)) as [w2 [Hrun _]].
  rewrite Hrun. cbn [fst snd]. unfold get_or at 1. rewrite Hv. reflexivity.
Qed.

(** X9. Whenever the adapter answers [None], for lack of configuration or
    after a failure, [classificar_email] returns the pair the keyword
    classifier returns for the text. *)
Theorem classificar_email_falls_back
        (lower : pystr -> pystr) (json_loads : pystr -> result pyval)
        (str_of_other : pyval -> pystr)
        (texto : pystr) (w w1 w0 : world) :
  classificar_com_openai json_loads str_of_other texto w = (Ok None, w1) ->
  exists categoria resposta,
    fst (classificar_fallback lower str_of_other texto w0)
    = Ok (categoria, resposta)
    /\ fst (classificar_email lower json_loads str_of_other texto w)
       = Ok (PStr categoria, PStr resposta).
Proof.
  intros E.
  destruct (classificar_fallback_run lower str_of_other texto w1)
    as [c [r [w' [F _]]]].
  exists c, r. split.
  - rewrite (classificar_fallback_pair_determined lower str_of_other
               texto texto w0 w1); [|tauto|reflexivity].
    rewrite F. reflexivity.
  - unfold classificar_email, bind, ret. rewrite E, F. reflexivity.
Qed.

(** X10. A response that is one brace-delimited text is taken whole, and the
    span found in any response is found again in itself. *)
Theorem re_search_whole_object (mid s g : pystr) :
  re_search true json_pattern ([open_brace] ++ mid ++ [close_brace])
  = Some ([open_brace] ++ mid ++ [close_brace])
  /\ (re_search true json_pattern s = Some g ->
      re_search true json_pattern g = Some g).
Proof.
  assert (W : forall m,
             re_search true json_pattern ([open_brace] ++ m ++ [close_brace])
             = Some ([open_brace] ++ m ++ [close_brace])).
  { intros m. apply re_search_span. exists [], m, [].
    split; [reflexivity|]. split; [intros []|]. split; [intros []|].
    reflexivity. }
  split; [apply W|].
  intros H. apply re_search_span in H.
  destruct H as [pre [m [post [_ [_ [_ ->]]]]]]. apply W.
Qed.

(** ** Paths and [ler_arquivo] *)

Lemma rfind_from_notin (c : char) (s : pystr) (i last : Z) :
  ~ In c s -> rfind_from c s i last = last.
Proof.
  revert i last. induction s as [|x s IH]; intros i last H; [reflexivity|].
  cbn [rfind_from]. destruct (char_eqb x c) eqn:E.
  - apply char_eqb_eq in E. subst x. exfalso. apply H. left. reflexivity.
  - apply IH. intros Hin. apply H. right. exact Hin.
Qed.

Lemma rfind_from_last (c : char) (a b : pystr) (i last : Z) :
  ~ In c b ->
  rfind_from c (a ++ c :: b) i last = (i + Z.of_nat (length a))%Z.
Proof.
  intros Hb. revert i last. induction a as [|x a IH]; intros i last.
  - cbn [app rfind_from length]. rewrite char_eqb_refl.
    rewrite rfind_from_notin by exact Hb. lia.
  - cbn [app rfind_from length]. rewrite IH. lia.
Qed.

Lemma rfind_notin (c : char) (s : pystr) :
  ~ In c s -> rfind c s = (-1)%Z.
Proof. apply rfind_from_notin. Qed.

Lemma rfind_last (c : char) (a b : pystr) :
  ~ In c b -> rfind c (a ++ c :: b) = Z.of_nat (length a).
Proof. intros H. unfold rfind. rewrite rfind_from_last by exact H. lia. Qed.

(** A character occurs last somewhere, or not at all. *)
Lemma last_occurrence (c : char) (s : pystr) :
  ~ In c s \/ exists a b, s = a ++ c :: b /\ ~ In c b.
Proof.
  destruct (rcut c s) as [[a b]|] eqn:E.
  - right. exists a, b. apply rcut_some. exact E.
  - left. apply rcut_none. exact E.
Qed.

(** The loop answers the cut at [dotIndex] as soon as it meets a
    character that is not a dot, and the whole path when it meets
    none. *)
Lemma splitext_loop_spec (p : pystr) (dotIndex f steps : nat) :
  f + steps <= length p ->
  splitext_loop p dotIndex f steps
  = if forallb (fun c => char_eqb c DOT) (firstn steps (skipn f p))
    then (p, [])
    else (firstn dotIndex p, skipn dotIndex p).
Proof.
  revert f. induction steps as [|steps IH]; intros f Hlen; [reflexivity|].
  cbn [splitext_loop]. unfold slice.
  replace (S f - f) with 1 by lia.
  destruct (skipn f p) as [|x rest] eqn:E.
  - exfalso. apply (f_equal (@length char)) in E.
    rewrite length_skipn in E. simpl in E. lia.
  - assert (R : skipn (S f) p = rest).
    { replace (S f) with (1 + f) by lia. rewrite <- skipn_skipn, E.
      reflexivity. }
    cbn [firstn forallb str_eqb]. rewrite andb_true_r.
    destruct (char_eqb x DOT); cbn [negb andb]; [|reflexivity].
    rewrite IH by lia. rewrite R. reflexivity.
Qed.

(** [os.path.splitext] gives back the path: root and extension put
    together are the path again. *)
Lemma splitext_loop_concat (p : pystr) (dotIndex f steps : nat) :
  fst (splitext_loop p dotIndex f steps)
  ++ snd (splitext_loop p dotIndex f steps) = p.
Proof.
  revert f. induction steps as [|steps IH]; intros f.
  - apply app_nil_r.
  - cbn [splitext_loop].
    destruct (negb (str_eqb (slice f (S f) p) [DOT])).
    + apply firstn_skipn.
    + apply IH.
Qed.

(** The extension of a path whose last component is [stem.ext]: none
    when the stem is empty or made of dots, [.ext] otherwise. The
    directory part, with its dots and slashes, plays no role. *)
Lemma splitext_name (dir stem ext : pystr) :
  dir = [] \/ (exists d, dir = d ++ [SLASH]) ->
  ~ In SLASH (stem ++ [DOT] ++ ext) ->
  ~ In DOT ext ->
  splitext (dir ++ stem ++ [DOT] ++ ext)
  = if forallb (fun c => char_eqb c DOT) stem
    then (dir ++ stem ++ [DOT] ++ ext, [])
    else (dir ++ stem, [DOT] ++ ext).
Proof.
  intros Hdir Hsl Hdot.
  assert (Hsep : rfind SLASH (dir ++ stem ++ [DOT] ++ ext)
                 = (Z.of_nat (length dir) - 1)%Z).
  { destruct Hdir as [-> | [d ->]].
    - cbn [app length]. rewrite rfind_notin by exact Hsl. reflexivity.
    - rewrite <- app_assoc. cbn [app].
      rewrite rfind_last by exact Hsl.
      rewrite length_app. cbn [length]. lia. }
  assert (Hd : rfind DOT (dir ++ stem ++ [DOT] ++ ext)
               = Z.of_nat (length dir + length stem)).
  { rewrite app_assoc. cbn [app]. rewrite rfind_last by exact Hdot.
    rewrite length_app. reflexivity. }
  unfold splitext. rewrite Hsep, Hd.
  replace (Z.of_nat (length dir) - 1 <? Z.of_nat (length dir + length stem))%Z
    with true by (symmetry; apply Z.ltb_lt; lia).
  replace (Z.to_nat (Z.of_nat (length dir) - 1 + 1)) with (length dir) by lia.
  replace (Z.to_nat (Z.of_nat (length dir + length stem)
                     - (Z.of_nat (length dir) - 1 + 1)))
    with (length stem) by lia.
  rewrite Nat2Z.id.
  rewrite splitext_loop_spec
    by (rewrite !length_app; cbn [length]; lia).
  rewrite skipn_app, skipn_all, Nat.sub_diag. cbn [app skipn].
  rewrite firstn_app, firstn_all, Nat.sub_diag. cbn [firstn].
  rewrite app_nil_r.
  destruct (forallb (fun c => char_eqb c DOT) stem); [reflexivity|].
  rewrite (app_assoc dir stem).
  rewrite firstn_app, skipn_app.
  rewrite <- length_app, firstn_all, skipn_all, Nat.sub_diag.
  cbn [firstn skipn app]. rewrite app_nil_r. reflexivity.
Qed.

(** X11. [os.path.splitext] in general: root and extension make up the path,
    and the extension is empty or a dot followed by characters that are
    neither dots nor slashes. *)
Theorem splitext_shape (p : pystr) :
  fst (splitext p) ++ snd (splitext p) = p
  /\ (snd (splitext p) = []
      \/ exists ext,
           snd (splitext p) = DOT :: ext
           /\ ~ In DOT ext /\ ~ In SLASH ext).
Proof.
  split.
  - unfold splitext.
    destruct (rfind SLASH p <? rfind DOT p)%Z;
      [apply splitext_loop_concat | apply app_nil_r].
  - destruct (last_occurrence SLASH p) as [NS | [d [name [-> NS]]]].
    + destruct (last_occurrence DOT p) as [ND | [stem [ext [-> ND]]]].
      * left. unfold splitext.
        rewrite (rfind_notin SLASH p NS), (rfind_notin DOT p ND).
        reflexivity.
      * change (stem ++ DOT :: ext) with ([] ++ stem ++ [DOT] ++ ext).
        rewrite (splitext_name [] stem ext (or_introl eq_refl) NS ND).
        destruct (forallb (fun c => char_eqb c DOT) stem);
          [left; reflexivity|].
        right. exists ext. split; [reflexivity|]. split; [exact ND|].
        intros H. apply NS. apply in_or_app. right. right. exact H.
    + destruct (last_occurrence DOT name) as [ND | [stem [ext [-> ND]]]].
      * left. unfold splitext.
        replace (rfind SLASH (d ++ SLASH :: name) <?
                 rfind DOT (d ++ SLASH :: name))%Z with false;
          [reflexivity|].
        symmetry. apply Z.ltb_ge. rewrite rfind_last by exact NS.
        destruct (last_occurrence DOT d) as [NDd | [a [b [-> NDb]]]].
        -- rewrite rfind_notin; [lia|].
           rewrite in_app_iff. intros [H | [H | H]];
             [exact (NDd H) | discriminate | exact (ND H)].
        -- rewrite <- app_assoc. cbn [app]. rewrite rfind_last.
           ++ rewrite !length_app. cbn [length]. lia.
           ++ rewrite in_app_iff. intros [H | [H | H]];
                [exact (NDb H) | discriminate | exact (ND H)].
      * replace (d ++ SLASH :: stem ++ DOT :: ext)
          with ((d ++ [SLASH]) ++ stem ++ [DOT] ++ ext)
          by (rewrite <- app_assoc; reflexivity).
        rewrite (splitext_name (d ++ [SLASH]) stem ext);
          [| right; exists d; reflexivity | exact NS | exact ND].
        destruct (forallb (fun c => char_eqb c DOT) stem);
          [left; reflexivity|].
        right. exists ext. split; [reflexivity|]. split; [exact ND|].
        intros H. apply NS. apply in_or_app. right. right. exact H.
Qed.

Ltac run_site :=
  unfold try_exceptR, bindR, retR, liftR, in_world, open_read, flash,
    save_upload, logger_exception, logger_warning, modify, bind, ret.

(** [ler_arquivo], branch by branch. *)
Lemma ler_arquivo_run (lower : pystr -> pystr) (h : host)
      (caminho : pystr) (s : site) :
  ler_arquivo lower h caminho s
  = if str_eqb (lower (snd (splitext caminho))) (u ".txt") then
      match read_text h (site_disk s) caminho with
      | Ok t => (Ok t, s)
      | Raise e =>
        (Ok [], log_in_site (LogException (u "ler_arquivo falhou: %s") e) s)
      end
    else if str_eqb (lower (snd (splitext caminho))) (u ".pdf") then
      match pdf_extract_text h with
      | Some extract =>
        match extract (site_disk s) caminho with
        | Ok t => (Ok t, s)
        | Raise e =>
          (Ok [], log_in_site (LogWarning (u "Erro ao extrair PDF: %s") e) s)
        end
      | None => (Ok [], s)
      end
    else (Ok [], s).
Proof.
  unfold ler_arquivo. cbv zeta.
  destruct (str_eqb (lower (snd (splitext caminho))) (u ".txt")).
  - run_site. destruct (read_text h (site_disk s) caminho); reflexivity.
  - destruct (str_eqb (lower (snd (splitext caminho))) (u ".pdf"));
      [|reflexivity].
    destruct (pdf_extract_text h) as [extract|]; [|reflexivity].
    run_site. destruct (extract (site_disk s) caminho); reflexivity.
Qed.

Ltac fin_site :=
  unfold log_in_site, flashed;
  cbn [site_disk site_flashes site_world set_site_world set_site_flashes
       set_site_disk LOG_FILE set_logger logger];
  repeat split; auto; intros H; exfalso; apply H; reflexivity.

Lemma ler_arquivo_ok (lower : pystr -> pystr) (h : host)
        (caminho : pystr) (s : site) :
  exists texto s',
    ler_arquivo lower h caminho s = (Ok texto, s')
    /\ site_disk s' = site_disk s
    /\ site_flashes s' = site_flashes s
    /\ LOG_FILE (site_world s') = LOG_FILE (site_world s)
    /\ (texto <> [] -> s' = s).
Proof.
  rewrite ler_arquivo_run.
  destruct (str_eqb (lower (snd (splitext caminho))) (u ".txt")).
  - destruct (read_text h (site_disk s) caminho) as [t|e].
    + exists t, s. fin_site.
    + eexists [], _. split; [reflexivity|]. fin_site.
  - destruct (str_eqb (lower (snd (splitext caminho))) (u ".pdf")).
    + destruct (pdf_extract_text h) as [extract|].
      * destruct (extract (site_disk s) caminho) as [t|e].
        -- exists t, s. fin_site.
        -- eexists [], _. split; [reflexivity|]. fin_site.
      * exists [], s. fin_site.
    + exists [], s. fin_site.
Qed.

(** X12. [ler_arquivo] never raises: it returns a string, touches nothing but
    the logger, and touches nothing at all when the string is not
    empty. *)
Theorem ler_arquivo_never_raises (lower : pystr -> pystr) (h : host)
        (caminho : pystr) (s : site) :
  exists texto s',
    ler_arquivo lower h caminho s = (Ok texto, s')
    /\ site_disk s' = site_disk s
    /\ site_flashes s' = site_flashes s
    /\ LOG_FILE (site_world s') = LOG_FILE (site_world s)
    /\ (texto <> [] -> s' = s).
Proof. exact (ler_arquivo_ok lower h caminho s). Qed.

Lemma ler_arquivo_other (lower : pystr -> pystr) (h : host)
        (caminho : pystr) (s : site) :
  lower (snd (splitext caminho)) <> u ".txt" ->
  lower (snd (splitext caminho)) <> u ".pdf" \/ pdf_extract_text h = None ->
  ler_arquivo lower h caminho s = (Ok [], s).
Proof.
  intros Ht Hp. rewrite ler_arquivo_run.
  destruct (str_eqb (lower (snd (splitext caminho))) (u ".txt")) eqn:E1.
  { apply str_eqb_eq in E1. contradiction. }
  destruct (str_eqb (lower (snd (splitext caminho))) (u ".pdf")) eqn:E2;
    [|reflexivity].
  apply str_eqb_eq in E2. destruct Hp as [Hp | Hp]; [contradiction|].
  rewrite Hp. reflexivity.
Qed.

(** X13. An extension that is neither ".txt" nor ".pdf" when lower-cased, or
    ".pdf" on a host without pdfminer, gives the empty string and
    changes nothing. *)
Theorem ler_arquivo_unsupported (lower : pystr -> pystr) (h : host)
        (caminho : pystr) (s : site) :
  lower (snd (splitext caminho)) <> u ".txt" ->
  lower (snd (splitext caminho)) <> u ".pdf" \/ pdf_extract_text h = None ->
  ler_arquivo lower h caminho s = (Ok [], s).
Proof. exact (ler_arquivo_other lower h caminho s). Qed.

Lemma ler_arquivo_txt_run (lower : pystr -> pystr) (h : host)
        (Hlower : lowers_ascii lower)
        (dir stem ext : pystr) (s : site) :
  dir = [] \/ (exists d, dir = d ++ [SLASH]) ->
  ~ In SLASH (stem ++ [DOT] ++ ext) ->
  forallb (fun c => char_eqb c DOT) stem = false ->
  (forall c, In c ext -> is_ascii c = true) ->
  map lower_char_ascii ext = u "txt" ->
  ler_arquivo lower h (dir ++ stem ++ [DOT] ++ ext) s
  = match read_text h (site_disk s) (dir ++ stem ++ [DOT] ++ ext) with
    | Ok t => (Ok t, s)
    | Raise e =>
      (Ok [], log_in_site (LogException (u "ler_arquivo falhou: %s") e) s)
    end.
Proof.
  intros Hdir Hsl Hstem Hascii Hext.
  assert (Hdot : ~ In DOT ext).
  { intros H. apply (in_map lower_char_ascii) in H. rewrite Hext in H.
    vm_compute in H. intuition discriminate. }
  rewrite ler_arquivo_run, (splitext_name dir stem ext Hdir Hsl Hdot), Hstem.
  cbn [snd app].
  rewrite (Hlower (DOT :: ext)).
  - cbn [map]. rewrite Hext. reflexivity.
  - intros c [<- | Hc]; [reflexivity | exact (Hascii c Hc)].
Qed.

(** X14. A text file is recognised by its last extension in any ASCII case,
    wherever it lies: the result is what reading the file gives, and the
    empty string, with one [logger.exception] record, when reading
    fails. *)
Theorem ler_arquivo_txt (lower : pystr -> pystr) (h : host)
        (Hlower : lowers_ascii lower)
        (dir stem ext : pystr) (s : site) :
  dir = [] \/ (exists d, dir = d ++ [SLASH]) ->
  ~ In SLASH (stem ++ [DOT] ++ ext) ->
  forallb (fun c => char_eqb c DOT) stem = false ->
  (forall c, In c ext -> is_ascii c = true) ->
  map lower_char_ascii ext = u "txt" ->
  ler_arquivo lower h (dir ++ stem ++ [DOT] ++ ext) s
  = match read_text h (site_disk s) (dir ++ stem ++ [DOT] ++ ext) with
    | Ok t => (Ok t, s)
    | Raise e =>
      (Ok [], log_in_site (LogException (u "ler_arquivo falhou: %s") e) s)
    end.
Proof.
  exact (ler_arquivo_txt_run lower h Hlower dir stem ext s).
Qed.

(** X15. A name that is only dots before its last extension, ".txt" for one,
    has no extension for [ler_arquivo]: nothing is read. *)
Theorem ler_arquivo_dot_name (lower : pystr -> pystr) (h : host)
        (Hlower : lowers_ascii lower)
        (dir stem ext : pystr) (s : site) :
  dir = [] \/ (exists d, dir = d ++ [SLASH]) ->
  ~ In SLASH (stem ++ [DOT] ++ ext) ->
  ~ In DOT ext ->
  forallb (fun c => char_eqb c DOT) stem = true ->
  ler_arquivo lower h (dir ++ stem ++ [DOT] ++ ext) s = (Ok [], s).
Proof.
  intros Hdir Hsl Hdot Hstem.
  assert (L : lower [] = []) by (apply (Hlower []); intros c []).
  apply ler_arquivo_other;
    rewrite (splitext_name dir stem ext Hdir Hsl Hdot), Hstem; cbn [snd];
    rewrite L; [|left]; discriminate.
Qed.

(** X16. A PDF goes to pdfminer when it is installed: its text comes back,
    and a failure inside it gives the empty string with one warning. *)
Theorem ler_arquivo_pdf (lower : pystr -> pystr) (h : host)
        (caminho : pystr) (s : site)
        (extract : disk_t -> pystr -> result pystr) :
  lower (snd (splitext caminho)) = u ".pdf" ->
  pdf_extract_text h = Some extract ->
  ler_arquivo lower h caminho s
  = match extract (site_disk s) caminho with
    | Ok t => (Ok t, s)
    | Raise e =>
      (Ok [], log_in_site (LogWarning (u "Erro ao extrair PDF: %s") e) s)
    end.
Proof.
  intros He Hp. rewrite ler_arquivo_run, He, Hp. reflexivity.
Qed.

(** ** The request handler *)


Lemma strip_not_blank (t : pystr) : strip t <> [] -> ~ blank (strip t).
Proof.
  unfold strip, rstrip. intros H B.
  destruct (lstrip (rev (lstrip t))) as [|c r] eqn:E;
    [apply H; reflexivity|].
  apply lstrip_head in E.
  assert (Hc : In c (rev (c :: r))) by (apply in_rev; rewrite rev_involutive; left; reflexivity).
  rewrite (B c Hc) in E. discriminate.
Qed.

(** [classificar_email] returns a pair after one log call. *)
Lemma classificar_email_run
      (lower : pystr -> pystr) (json_loads : pystr -> result pyval)
      (str_of_other : pyval -> pystr) (texto : pystr) (w : world) :
  exists category reply w',
    classificar_email lower json_loads str_of_other texto w
    = (Ok (category, reply), w')
    /\ audit_outcome
         (log_line str_of_other (now_isoformat w) category
                   (replace_char LF SPACE (firstn 200 texto))) w w'.
Proof.
  destruct (classificar_com_openai_cases json_loads str_of_other texto w)
    as [[[category reply]|] [w1 [E [Hs Ha]]]].
  - exists category, reply, w1. split; [|exact Ha].
    unfold classificar_email, bind, ret. rewrite E. reflexivity.
  - destruct (classificar_fallback_run lower str_of_other texto w1)
      as [c [r [w' [F [_ [_ [A _]]]]]]].
    exists (PStr c), (PStr r), w'. split.
    + unfold classificar_email, bind, ret. rewrite E, F. reflexivity.
    + apply audit_outcome_from with (w1 := w1); [exact Hs | exact Ha |].
      destruct Hs as [_ [_ [_ [Hn _]]]]. rewrite <- Hn. exact A.
Qed.

Lemma bindR_run {A B} (c : Req A) (k : A -> Req B) (s s' : site) (a : A) :
  c s = (Ok a, s') -> bindR c k s = k a s'.
Proof. intros H. unfold bindR. rewrite H. reflexivity. Qed.

Lemma bindR_raise {A B} (c : Req A) (k : A -> Req B) (s s' : site)
      (e : pyexn) :
  c s = (Raise e, s') -> bindR c k s = (Raise e, s').
Proof. intros H. unfold bindR. rewrite H. reflexivity. Qed.

Lemma try_exceptR_ok {A} (c : Req A) (hd : pyexn -> Req A) (s s' : site)
      (a : A) :
  c s = (Ok a, s') -> try_exceptR c hd s = (Ok a, s').
Proof. intros H. unfold try_exceptR. rewrite H. reflexivity. Qed.

Lemma try_exceptR_raise {A} (c : Req A) (hd : pyexn -> Req A) (s s' : site)
      (e : pyexn) :
  c s = (Raise e, s') -> try_exceptR c hd s = hd e s'.
Proof. intros H. unfold try_exceptR. rewrite H. reflexivity. Qed.

(** The upload step of [index], way by way. *)
Lemma index_upload_run (lower : pystr -> pystr) (h : host)
      (email_texto name : pystr) (arquivo : upload) (s : site) :
  has_filename arquivo = Some name ->
  (allowed_file lower name = Ok false ->
   index_upload lower h email_texto arquivo s
   = (Ok (inl page_none), flashed msg_formato (u "danger") s))
  /\ (allowed_file lower name = Ok true ->
      let caminho := path_join UPLOAD_FOLDER (secure_filename h name) in
      (forall e,
         save_fault h (site_disk s) arquivo caminho = Some e ->
         index_upload lower h email_texto arquivo s
         = (Ok (inl page_none),
            flashed msg_erro_arquivo (u "danger")
              (log_in_site
                 (LogException (u "Erro ao salvar/ler arquivo: %s") e) s)))
      /\ (save_fault h (site_disk s) arquivo caminho = None ->
          exists texto s2,
            ler_arquivo lower h caminho
              (set_site_disk (site_disk s ++ [(caminho, arquivo)]) s)
            = (Ok texto, s2)
            /\ index_upload lower h email_texto arquivo s
               = (Ok (inr texto), s2))).
Proof.
  intros Hname. unfold index_upload. rewrite Hname. split.
  - intros Ha.
    rewrite (bindR_run (liftR (allowed_file lower name)) _ s s false)
      by (unfold liftR; rewrite Ha; reflexivity).
    reflexivity.
  - intros Ha. cbv zeta.
    rewrite (bindR_run (liftR (allowed_file lower name)) _ s s true)
      by (unfold liftR; rewrite Ha; reflexivity).
    cbn [negb]. split.
    + intros e He.
      rewrite (try_exceptR_raise _ _ s s e).
      * reflexivity.
      * apply bindR_raise. unfold save_upload. rewrite He. reflexivity.
    + intros Hs.
      destruct (ler_arquivo_ok lower h
                  (path_join UPLOAD_FOLDER (secure_filename h name))
                  (set_site_disk
                     (site_disk s
                      ++ [(path_join UPLOAD_FOLDER (secure_filename h name),
                           arquivo)]) s))
        as [texto [s2 [E _]]].
      exists texto, s2. split; [exact E|].
      apply try_exceptR_ok.
      rewrite (bindR_run _ _ s
                 (set_site_disk
                    (site_disk s
                     ++ [(path_join UPLOAD_FOLDER (secure_filename h name),
                          arquivo)]) s) tt)
        by (unfold save_upload; rewrite Hs; reflexivity).
      rewrite (bindR_run _ _ _ s2 texto E). reflexivity.
Qed.


Lemma index_tail_classify
      (lower : pystr -> pystr) (json_loads : pystr -> result pyval)
      (str_of_other : pyval -> pystr) (fw : flask) (texto : pystr)
      (s : site) :
  exists category reply w',
    classificar_email lower json_loads str_of_other texto (site_world s)
    = (Ok (category, reply), w')
    /\ audit_outcome
         (log_line str_of_other (now_isoformat (site_world s)) category
                   (replace_char LF SPACE (firstn 200 texto)))
         (site_world s) w'
    /\ (res <- in_world
                 (classificar_email lower json_loads str_of_other texto) ;;
        render_template fw
          (Page (u "index.html") (Some (texto, fst res, snd res))
                (Some APP_NAME)))%site s
       = render_template fw (page_of (Some (texto, category, reply)))
                         (set_site_world w' s).
Proof.
  destruct (classificar_email_run lower json_loads str_of_other texto
              (site_world s)) as [c [r [w' [E A]]]].
  exists c, r, w'. split; [exact E|]. split; [exact A|].
  rewrite (bindR_run _ _ s (set_site_world w' s) (c, r))
    by (unfold in_world; rewrite E; reflexivity).
  reflexivity.
Qed.

(** Reading the form: refused above the limit, and otherwise up to the
    parser. *)
Lemma request_form_ok (fw : flask) (req : request) (s : site) :
  (content_length req <= MAX_CONTENT_LENGTH)%N ->
  form_fault fw req = None ->
  request_form fw req s = (Ok tt, s).
Proof.
  intros Hlen Hf. unfold request_form.
  replace (MAX_CONTENT_LENGTH <? content_length req)%N with false
    by (symmetry; apply N.ltb_ge; exact Hlen).
  rewrite Hf. reflexivity.
Qed.

Lemma request_form_too_large (fw : flask) (req : request) (s : site) :
  (MAX_CONTENT_LENGTH < content_length req)%N ->
  request_form fw req s = (Raise RequestEntityTooLarge, s).
Proof.
  intros Hlen. unfold request_form.
  replace (MAX_CONTENT_LENGTH <? content_length req)%N with true
    by (symmetry; apply N.ltb_lt; exact Hlen).
  reflexivity.
Qed.


Lemma index_post
      (lower : pystr -> pystr) (json_loads : pystr -> result pyval)
      (str_of_other : pyval -> pystr) (h : host) (fw : flask)
      (req : request) (s : site) :
  req_method req = POST ->
  request_form fw req s = (Ok tt, s) ->
  index lower json_loads str_of_other h fw req s
  = bindR
      (if negb (truthy (form_text req)) then
         match files_email_file req with
         | Some arquivo => index_upload lower h (form_text req) arquivo
         | None => retR (inr (form_text req))
         end
       else retR (inr (form_text req)))
      (index_rest lower json_loads str_of_other fw) s.
Proof.
  intros H F. unfold index. rewrite H.
  rewrite (bindR_run (request_form fw req) _ s s tt F). reflexivity.
Qed.



(** X26. A POST whose body is longer than [MAX_CONTENT_LENGTH] raises
    [RequestEntityTooLarge] when the form is read: nothing is
    classified, saved, flashed or logged, whatever the host. A text of
    more characters than the limit, or a file of more bytes, makes such
    a body. *)
Theorem index_too_large
        (lower : pystr -> pystr) (json_loads : pystr -> result pyval)
        (str_of_other : pyval -> pystr) (h : host) (fw : flask)
        (req : request) (s : site) :
  req_method req = POST ->
  ((MAX_CONTENT_LENGTH < content_length req)%N
   \/ (exists texto,
         form_email_text req = Some texto
         /\ (MAX_CONTENT_LENGTH < N.of_nat (length texto))%N)
   \/ (exists arquivo,
         files_email_file req = Some arquivo
         /\ (MAX_CONTENT_LENGTH < N.of_nat (length (up_body arquivo)))%N)) ->
  index lower json_loads str_of_other h fw req s
  = (Raise RequestEntityTooLarge, s).
Proof.
  intros Hm Hlen. unfold index. rewrite Hm.
  apply bindR_raise. apply request_form_too_large.
  destruct Hlen as [H | [[texto [E H]] | [arquivo [E H]]]];
    [exact H | |]; unfold content_length; rewrite E; lia.
Qed.

(** X18. Text typed into the form wins: once the form is read, it is
    stripped, it is never blank when it is classified, and a file sent
    along is neither checked nor saved; the page rendered carries the
    stripped text and the pair [classificar_email] returns. *)
Theorem index_form_text
        (lower : pystr -> pystr) (json_loads : pystr -> result pyval)
        (str_of_other : pyval -> pystr) (h : host) (fw : flask)
        (req : request) (s : site) :
  req_method req = POST ->
  (content_length req <= MAX_CONTENT_LENGTH)%N ->
  form_fault fw req = None ->
  form_text req <> [] ->
  ~ blank (form_text req)
  /\ exists category reply w',
       classificar_email lower json_loads str_of_other (form_text req)
                         (site_world s)
       = (Ok (category, reply), w')
       /\ index lower json_loads str_of_other h fw req s
          = render_template fw
              (page_of (Some (form_text req, category, reply)))
              (set_site_world w' s).
Proof.
  intros Hm Hlen Hff Ht. split; [apply strip_not_blank; exact Ht|].
  destruct (index_tail_classify lower json_loads str_of_other fw
              (form_text req) s) as [c [r [w' [E [_ F]]]]].
  exists c, r, w'. split; [exact E|].
  rewrite (index_post lower json_loads str_of_other h fw req s Hm
             (request_form_ok fw req s Hlen Hff)).
  assert (T : truthy (form_text req) = true)
    by (destruct (form_text req); [contradiction | reflexivity]).
  rewrite T. cbn [negb].
  rewrite (bindR_run (retR (inr (form_text req)))
                     (index_rest lower json_loads str_of_other fw)
                     s s (inr (form_text req)) eq_refl).
  unfold index_rest. rewrite T. cbn [negb]. exact F.
Qed.




(** The way of an accepted upload through [index]. *)
Lemma index_upload_saved_run
        (lower : pystr -> pystr) (json_loads : pystr -> result pyval)
        (str_of_other : pyval -> pystr) (h : host) (fw : flask)
        (req : request) (arquivo : upload) (name : pystr) (s : site) :
  req_method req = POST ->
  (content_length req <= MAX_CONTENT_LENGTH)%N ->
  form_fault fw req = None ->
  form_text req = [] ->
  files_email_file req = Some arquivo ->
  has_filename arquivo = Some name ->
  allowed_file lower name = Ok true ->
  let caminho := path_join UPLOAD_FOLDER (secure_filename h name) in
  let s1 := set_site_disk (site_disk s ++ [(caminho, arquivo)]) s in
  save_fault h (site_disk s) arquivo caminho = None ->
  exists texto s2,
    ler_arquivo lower h caminho s1 = (Ok texto, s2)
    /\ site_disk s2 = site_disk s ++ [(caminho, arquivo)]
    /\ (texto = [] ->
        index lower json_loads str_of_other h fw req s
        = render_template fw page_none
            (flashed msg_insira (u "warning") s2))
    /\ (texto <> [] ->
        exists category reply w',
          classificar_email lower json_loads str_of_other texto
                            (site_world s)
          = (Ok (category, reply), w')
          /\ index lower json_loads str_of_other h fw req s
             = render_template fw
                 (page_of (Some (texto, category, reply)))
                 (set_site_world w' s1)).
Proof.
  intros Hm Hlen Hff Ht Hf Hn Ha caminho s1 Hs.
  destruct (index_upload_run lower h [] name arquivo s Hn) as [_ Hyes].
  destruct (Hyes Ha) as [_ Hsave]. fold caminho in Hsave.
  destruct (Hsave Hs) as [texto [s2 [E U]]]. fold s1 in E.
  destruct (ler_arquivo_ok lower h caminho s1)
    as [t' [s2' [E' [Hd [_ [_ Hsame]]]]]].
  rewrite E in E'. injection E' as <- <-.
  exists texto, s2. split; [exact E|]. split; [exact Hd|].
  assert (I : index lower json_loads str_of_other h fw req s
              = index_rest lower json_loads str_of_other fw (inr texto) s2).
  { rewrite (index_post lower json_loads str_of_other h fw req s Hm
               (request_form_ok fw req s Hlen Hff)).
    rewrite Ht, Hf. cbn [truthy negb].
    rewrite (bindR_run _ _ s s2 (inr texto) U). reflexivity. }
  split.
  - intros ->. rewrite I. reflexivity.
  - intros Hne. rewrite (Hsame Hne) in I.
    assert (T : truthy texto = true)
      by (destruct texto; [contradiction | reflexivity]).
    destruct (index_tail_classify lower json_loads str_of_other fw texto s1)
      as [c [r [w' [Ec [_ F]]]]].
    exists c, r, w'. split; [exact Ec|].
    rewrite I. unfold index_rest. rewrite T. cbn [negb]. exact F.
Qed.


(** X23. Only an upload brings blank text to the classifier: a file that
    reads as whitespace is classified, without the [openai] module, as
    Improdutivo with "Obrigado pela mensagem!", and the page rendered
    carries that. *)
Theorem index_blank_file
        (lower : pystr -> pystr) (json_loads : pystr -> result pyval)
        (str_of_other : pyval -> pystr) (h : host) (fw : flask)
        (req : request) (arquivo : upload) (name texto : pystr) (s : site) :
  req_method req = POST ->
  (content_length req <= MAX_CONTENT_LENGTH)%N ->
  form_fault fw req = None ->
  form_text req = [] ->
  files_email_file req = Some arquivo ->
  has_filename arquivo = Some name ->
  allowed_file lower name = Ok true ->
  let caminho := path_join UPLOAD_FOLDER (secure_filename h name) in
  let s1 := set_site_disk (site_disk s ++ [(caminho, arquivo)]) s in
  save_fault h (site_disk s) arquivo caminho = None ->
  ler_arquivo lower h caminho s1 = (Ok texto, s1) ->
  texto <> [] -> blank texto ->
  openai (site_world s) = false ->
  exists w',
    index lower json_loads str_of_other h fw req s
    = render_template fw
        (page_of (Some (texto, PStr Improdutivo, PStr resposta_vazio)))
        (set_site_world w' s1).
Proof.
  intros Hm Hlen Hff Ht Hf Hn Ha caminho s1 Hs Hr Hne Hb Hoff.
  destruct (index_upload_saved_run lower json_loads str_of_other h fw req
              arquivo name s Hm Hlen Hff Ht Hf Hn Ha Hs)
    as [t' [s2 [E [_ [_ Hc]]]]].
  fold caminho s1 in E. rewrite Hr in E. injection E as <- <-.
  destruct (Hc Hne) as [c [r [w' [Ec I]]]].
  exists w'. rewrite I. do 3 f_equal.
  assert (Off : classificar_com_openai json_loads str_of_other texto
                  (site_world s) = (Ok None, site_world s))
    by (apply classificar_com_openai_off; left; exact Hoff).
  destruct (classificar_fallback_run lower str_of_other texto (site_world s))
    as [c0 [r0 [w0 [F [_ [_ [_ H]]]]]]].
  unfold classificar_email, bind, ret in Ec. rewrite Off, F in Ec.
  injection Ec as <- <- _.
  destruct H as [[_ [-> ->]] | [[NB _] | [[NB _] | [NB _]]]];
    [reflexivity | contradiction | contradiction | contradiction].
Qed.

(** X24. From upload to answer: once the form is read, a file with a
    clean name [stem.ext], [ext] being "txt" in any ASCII case, is saved
    as [uploads/stem.ext], read, and what is read is classified and
    rendered. *)
Theorem index_txt_upload
        (lower : pystr -> pystr) (json_loads : pystr -> result pyval)
        (str_of_other : pyval -> pystr) (h : host) (fw : flask)
        (Hlower : lowers_ascii lower)
        (req : request) (arquivo : upload) (stem ext texto : pystr)
        (s : site) :
  req_method req = POST ->
  (content_length req <= MAX_CONTENT_LENGTH)%N ->
  form_fault fw req = None ->
  form_text req = [] ->
  files_email_file req = Some arquivo ->
  up_filename arquivo = Some (stem ++ [DOT] ++ ext) ->
  ~ In SLASH (stem ++ [DOT] ++ ext) ->
  forallb (fun c => char_eqb c DOT) stem = false ->
  (forall c, In c ext -> is_ascii c = true) ->
  map lower_char_ascii ext = u "txt" ->
  secure_filename h (stem ++ [DOT] ++ ext) = stem ++ [DOT] ++ ext ->
  let caminho := u "uploads/" ++ stem ++ [DOT] ++ ext in
  let s1 := set_site_disk (site_disk s ++ [(caminho, arquivo)]) s in
  save_fault h (site_disk s) arquivo caminho = None ->
  read_text h (site_disk s1) caminho = Ok texto ->
  texto <> [] ->
  exists category reply w',
    classificar_email lower json_loads str_of_other texto (site_world s)
    = (Ok (category, reply), w')
    /\ index lower json_loads str_of_other h fw req s
       = render_template fw (page_of (Some (texto, category, reply)))
                         (set_site_world w' s1).
Proof.
  intros Hm Hlen Hff Ht Hf Hn Hsl Hstem Hascii Hext Hsec caminho s1 Hs Hr Hne.
  assert (Hdot : ~ In DOT ext).
  { intros H. apply (in_map lower_char_ascii) in H. rewrite Hext in H.
    vm_compute in H. intuition discriminate. }
  assert (Hname : has_filename arquivo = Some (stem ++ [DOT] ++ ext)).
  { unfold has_filename. rewrite Hn. destruct stem; reflexivity. }
  assert (Ha : allowed_file lower (stem ++ [DOT] ++ ext) = Ok true).
  { rewrite (allowed_file_dotted lower stem ext Hdot).
    rewrite (Hlower ext Hascii), Hext. reflexivity. }
  assert (Hp : path_join UPLOAD_FOLDER
                 (secure_filename h (stem ++ [DOT] ++ ext)) = caminho).
  { rewrite Hsec. unfold path_join.
    replace (startswith [SLASH] (stem ++ [DOT] ++ ext)) with false.
    - reflexivity.
    - destruct stem as [|c stem']; [reflexivity|].
      cbn [app startswith]. destruct (char_eqb SLASH c) eqn:E; [|reflexivity].
      apply char_eqb_eq in E. subst c. exfalso. apply Hsl. left. reflexivity. }
  destruct (index_upload_saved_run lower json_loads str_of_other h fw req
              arquivo (stem ++ [DOT] ++ ext) s Hm Hlen Hff Ht Hf Hname Ha)
    as [t' [s2 [E [_ [_ Hc]]]]].
  { rewrite Hp. exact Hs. }
  rewrite Hp in E, Hc. subst s1.
  assert (Er : ler_arquivo lower h caminho
                 (set_site_disk (site_disk s ++ [(caminho, arquivo)]) s)
               = (Ok texto,
                  set_site_disk (site_disk s ++ [(caminho, arquivo)]) s)).
  { unfold caminho.
    rewrite (ler_arquivo_txt_run lower h Hlower (u "uploads/") stem ext
               (set_site_disk
                  (site_disk s
                   ++ [(u "uploads/" ++ stem ++ [DOT] ++ ext, arquivo)]) s));
      [| right; exists (u "uploads"); reflexivity | exact Hsl | exact Hstem
       | exact Hascii | exact Hext ].
    fold caminho. rewrite Hr. reflexivity. }
  pose proof (eq_trans (eq_sym E) Er) as X. injection X as -> ->.
  exact (Hc Hne).
Qed.


(** ** More runs on concrete inputs *)

Lemma registrar_log_outcomes_witness :
  registrar_log str_of_constants texto_urgente (PStr Produtivo) world_readonly
  = (Ok tt,
     set_logger [LogWarning (u "Falha ao gravar log local: %s") OSError]
                world_readonly).
Proof.
  exact (proj2 (registrar_log_outcomes str_of_constants texto_urgente
                  (PStr Produtivo) world_readonly) OSError eq_refl).
Defined.

Lemma classificar_fallback_logs_one_line_witness :
  ~ In LF (now_isoformat world_offline)
  /\ (LOG_FILE (snd (classificar_fallback lower_latin1 str_of_constants
                       (u "linha 1" ++ nl ++ u "linha 2") world_offline))
      = LOG_FILE world_offline
      \/ exists body,
           LOG_FILE (snd (classificar_fallback lower_latin1 str_of_constants
                            (u "linha 1" ++ nl ++ u "linha 2") world_offline))
           = LOG_FILE world_offline ++ [body ++ [LF]]
           /\ ~ In LF body).
Proof.
  assert (N : ~ In LF (now_isoformat world_offline))
    by (vm_compute; intuition discriminate).
  split; [exact N|].
  exact (classificar_fallback_logs_one_line lower_latin1 str_of_constants
           (u "linha 1" ++ nl ++ u "linha 2") world_offline N).
Defined.

Lemma classificar_fallback_produtivo_iff_witness :
  exists categoria resposta,
    fst (classificar_fallback lower_latin1 str_of_constants
           (u "Feliz Natal a todos!") world_offline)
    = Ok (categoria, resposta)
    /\ (categoria = Produtivo
        <-> has_keyword palavras_produtivas
              (lower_latin1 (u "Feliz Natal a todos!")))
    /\ (categoria = Improdutivo
        <-> ~ has_keyword palavras_produtivas
                (lower_latin1 (u "Feliz Natal a todos!"))).
Proof.
  exact (classificar_fallback_produtivo_iff lower_latin1 str_of_constants
           lower_latin1_keeps_blank (u "Feliz Natal a todos!") world_offline).
Defined.

Lemma ascii_of_forallb (s : pystr) :
  forallb is_ascii s = true -> forall c, In c s -> is_ascii c = true.
Proof. intros H c Hc. exact (proj1 (forallb_forall is_ascii s) H c Hc). Qed.

Lemma classificar_fallback_case_insensitive_witness :
  fst (classificar_fallback lower_latin1 str_of_constants
         (u "URGENTE: Falha no Sistema") world_offline)
  = fst (classificar_fallback lower_latin1 str_of_constants
           (u "urgente: falha no sistema") world_readonly).
Proof.
  apply (classificar_fallback_case_insensitive lower_latin1 str_of_constants
           lower_latin1_lowers_ascii).
  - apply ascii_of_forallb. vm_compute. reflexivity.
  - apply ascii_of_forallb. vm_compute. reflexivity.
  - vm_compute. reflexivity.
Defined.

Lemma classificar_fallback_productive_inside_witness :
  fst (classificar_fallback lower_latin1 str_of_constants
         (u "Obrigado! " ++ u "Tenho um PROBLEMA" ++ u " aqui. Abs")
         world_offline)
  = Ok (Produtivo, resposta_produtiva).
Proof.
  apply (classificar_fallback_productive_inside lower_latin1
           str_of_constants lower_latin1_lowers_ascii).
  - apply ascii_of_forallb. vm_compute. reflexivity.
  - apply has_keyword_of_find. vm_compute. reflexivity.
Defined.

Lemma classificar_com_openai_failure_witness :
  exists w',
    classificar_com_openai json_loads_docs str_of_constants
      texto_urgente world_remote_down
    = (Ok None, w')
    /\ LOG_FILE w' = LOG_FILE world_remote_down
    /\ logger w'
       = logger world_remote_down
         ++ [LogException (u "Erro ao chamar OpenAI: %s")
                          (OpenAIError (u "timeout"))]
    /\ openai_api_key w' = Some (u "sk-test").
Proof.
  apply (classificar_com_openai_failure json_loads_docs str_of_constants
           (u "sk-test") texto_urgente world_remote_down
           (set_openai_api_key (Some (u "sk-test")) world_remote_down)
           (OpenAIError (u "timeout")) eq_refl eq_refl).
  - vm_compute. discriminate.
  - reflexivity.
Defined.

Lemma classificar_email_category_unchecked_witness :
  fst (classificar_email lower_latin1 json_loads_spam str_of_constants
         texto_urgente (world_remote (PStr doc_spam)))
  = Ok (PStr (u "Spam"), PStr (u "ok"))
  /\ u "Spam" <> Produtivo /\ u "Spam" <> Improdutivo.
Proof.
  split; [|split; vm_compute; discriminate].
  apply (classificar_email_category_unchecked lower_latin1 json_loads_spam
           str_of_constants texto_urgente (u "sk-test")
           (chat_response (PStr doc_spam)) doc_spam doc_spam
           [(u "category", PStr (u "Spam")); (u "reply", PStr (u "ok"))]
           (PStr (u "Spam")) (world_remote (PStr doc_spam))
           eq_refl eq_refl).
  - vm_compute. discriminate.
  - reflexivity.
  - reflexivity.
  - apply re_search_span. vm_compute. reflexivity.
  - reflexivity.
  - reflexivity.
Defined.

Lemma classificar_email_falls_back_witness :
  exists categoria resposta,
    fst (classificar_fallback lower_latin1 str_of_constants
           texto_urgente world_offline)
    = Ok (categoria, resposta)
    /\ fst (classificar_email lower_latin1 json_loads_docs str_of_constants
              texto_urgente world_remote_down)
       = Ok (PStr categoria, PStr resposta).
Proof.
  apply (classificar_email_falls_back lower_latin1 json_loads_docs
           str_of_constants texto_urgente world_remote_down
           (snd (classificar_com_openai json_loads_docs str_of_constants
                   texto_urgente world_remote_down))
           world_offline).
  vm_compute. reflexivity.
Defined.

Lemma re_search_whole_object_witness :
  re_search true json_pattern (u "ok: {a} e {b}.") = Some (u "{a} e {b}")
  /\ re_search true json_pattern (u "{a} e {b}") = Some (u "{a} e {b}").
Proof.
  assert (H : re_search true json_pattern (u "ok: {a} e {b}.")
              = Some (u "{a} e {b}")) by (vm_compute; reflexivity).
  split; [exact H|].
  exact (proj2 (re_search_whole_object [] (u "ok: {a} e {b}.")
                  (u "{a} e {b}")) H).
Defined.

Lemma ler_arquivo_unsupported_witness :
  ler_arquivo lower_latin1 host_plain (u "uploads/fatura.pdf") site_offline
  = (Ok [], site_offline)
  /\ ler_arquivo lower_latin1 host_plain (u "uploads/notas.md") site_offline
     = (Ok [], site_offline).
Proof.
  split.
  - apply (ler_arquivo_unsupported lower_latin1 host_plain
             (u "uploads/fatura.pdf") site_offline).
    + vm_compute. discriminate.
    + right. reflexivity.
  - apply (ler_arquivo_unsupported lower_latin1 host_plain
             (u "uploads/notas.md") site_offline).
    + vm_compute. discriminate.
    + left. vm_compute. discriminate.
Defined.

Lemma ler_arquivo_txt_witness :
  ler_arquivo lower_latin1 host_plain (u "uploads/Pedido.TXT") site_offline
  = (Ok texto_urgente, site_offline).
Proof.
  apply (ler_arquivo_txt lower_latin1 host_plain lower_latin1_lowers_ascii
           (u "uploads/") (u "Pedido") (u "TXT") site_offline).
  - right. exists (u "uploads"). reflexivity.
  - vm_compute. intuition discriminate.
  - reflexivity.
  - apply ascii_of_forallb. reflexivity.
  - reflexivity.
Defined.

Lemma ler_arquivo_dot_name_witness :
  ler_arquivo lower_latin1 host_plain (u "uploads/.txt") site_offline
  = (Ok [], site_offline).
Proof.
  apply (ler_arquivo_dot_name lower_latin1 host_plain
           lower_latin1_lowers_ascii (u "uploads/") [] (u "txt")
           site_offline).
  - right. exists (u "uploads"). reflexivity.
  - vm_compute. intuition discriminate.
  - vm_compute. intuition discriminate.
  - reflexivity.
Defined.

Lemma ler_arquivo_pdf_witness :
  ler_arquivo lower_latin1 host_pdf_broken (u "uploads/fatura.PDF")
              site_offline
  = (Ok [],
     log_in_site (LogWarning (u "Erro ao extrair PDF: %s")
                             (OpenAIError (u "pdf"))) site_offline).
Proof.
  apply (ler_arquivo_pdf lower_latin1 host_pdf_broken
           (u "uploads/fatura.PDF") site_offline
           (fun _ _ => Raise (OpenAIError (u "pdf")))).
  - vm_compute. reflexivity.
  - reflexivity.
Defined.

Lemma ler_arquivo_never_raises_witness :
  exists texto s',
    ler_arquivo lower_latin1 host_disk_full (u "uploads/a.txt") site_offline
    = (Ok texto, s')
    /\ site_disk s' = site_disk site_offline
    /\ LOG_FILE (site_world s') = LOG_FILE (site_world site_offline).
Proof.
  destruct (ler_arquivo_never_raises lower_latin1 host_disk_full
              (u "uploads/a.txt") site_offline)
    as [texto [s' [E [D [_ [L _]]]]]].
  exists texto, s'. split; [exact E|]. split; [exact D | exact L].
Defined.


Lemma index_too_large_witness :
  index lower_latin1 json_loads_docs str_of_constants host_plain flask_plain
        req_too_large site_offline
  = (Raise RequestEntityTooLarge, site_offline).
Proof.
  apply (index_too_large lower_latin1 json_loads_docs str_of_constants
           host_plain flask_plain req_too_large site_offline eq_refl).
  left. vm_compute. reflexivity.
Defined.

Lemma index_form_text_witness :
  form_text req_text_and_file = texto_urgente
  /\ ~ blank (form_text req_text_and_file)
  /\ exists category reply w',
       classificar_email lower_latin1 json_loads_docs str_of_constants
         (form_text req_text_and_file) (site_world site_offline)
       = (Ok (category, reply), w')
       /\ index lower_latin1 json_loads_docs str_of_constants host_plain
            flask_plain req_text_and_file site_offline
          = render_template flask_plain
              (page_of (Some (form_text req_text_and_file,
                              category, reply)))
              (set_site_world w' site_offline).
Proof.
  split; [vm_compute; reflexivity|].
  apply (index_form_text lower_latin1 json_loads_docs str_of_constants
           host_plain flask_plain req_text_and_file site_offline eq_refl).
  - vm_compute. discriminate.
  - reflexivity.
  - vm_compute. discriminate.
Defined.





Lemma index_blank_file_witness :
  fst (index lower_latin1 json_loads_docs str_of_constants host_blank_file
             flask_plain (req_file upload_txt) site_offline)
  = Ok (page_of (Some (texto_em_branco, PStr Improdutivo,
                       PStr resposta_vazio))).
Proof.
  destruct (index_blank_file lower_latin1 json_loads_docs str_of_constants
              host_blank_file flask_plain (req_file upload_txt) upload_txt
              (u "Pedido.TXT") texto_em_branco site_offline eq_refl)
    as [w' E].
  - vm_compute. discriminate.
  - reflexivity.
  - vm_compute. reflexivity.
  - reflexivity.
  - reflexivity.
  - vm_compute. reflexivity.
  - reflexivity.
  - vm_compute. reflexivity.
  - discriminate.
  - apply blank_of_forallb. reflexivity.
  - reflexivity.
  - rewrite E. reflexivity.
Defined.

Lemma index_txt_upload_witness :
  exists category reply w',
    classificar_email lower_latin1 json_loads_docs str_of_constants
      texto_urgente (site_world site_offline)
    = (Ok (category, reply), w')
    /\ index lower_latin1 json_loads_docs str_of_constants host_plain
         flask_plain (req_file upload_txt) site_offline
       = render_template flask_plain
           (page_of (Some (texto_urgente, category, reply)))
           (set_site_world w'
              (set_site_disk [(u "uploads/Pedido.TXT", upload_txt)]
                             site_offline)).
Proof.
  apply (index_txt_upload lower_latin1 json_loads_docs str_of_constants
           host_plain flask_plain lower_latin1_lowers_ascii
           (req_file upload_txt) upload_txt (u "Pedido") (u "TXT")
           texto_urgente site_offline eq_refl).
  - vm_compute. discriminate.
  - reflexivity.
  - vm_compute. reflexivity.
  - reflexivity.
  - reflexivity.
  - vm_compute. intuition discriminate.
  - reflexivity.
  - apply ascii_of_forallb. reflexivity.
  - reflexivity.
  - vm_compute. reflexivity.
  - reflexivity.
  - reflexivity.
  - vm_compute. discriminate.
Defined.

